(** * GDD crop phenology dashboard: a shallow embedding of [app.py]

    The development embeds the callback [compute_gdd] of the Dash
    application together with the helpers it calls
    ([fetch_climate_temp], [build_planning_chart], ...), and proves the
    properties the specification states about them.

    Modelling conventions.
    - Python floats are modelled by exact rationals ([Q]); equalities
      between computed numbers are stated up to [Qeq] ([==]).  Where an
      integer is taken from a float ([int(harvest_gdd / max_daily)]), the
      binary64 rounding of the operations is modelled ([Num.round64]).
    - A [datetime.date] is its proleptic Gregorian ordinal (a [Z]), as
      returned by [date.toordinal()].
    - A pandas [DataFrame] is a record of columns (lists); frames live in
      a heap and are passed by reference, because frames are mutable
      objects shared between caller and callee.
    - Calls to collaborators that perform I/O are answered by an explicit
      [World]; every such call is appended to a call log.
    - f-strings that only decorate values are kept as constructors that
      carry the values. *)

From Stdlib Require Import QArith Qminmax Qabs Qpower Lqa ZArith Lia List Ascii.
From stdpp Require Import base option strings list gmap sorting.

Local Open Scope string_scope.

(** ** Numbers *)

Module Num.

Local Open Scope Q_scope.

(** Python's [int(x)] on a float: truncation toward zero. *)
Definition py_int (x : Q) : Z := Z.quot (Qnum x) (Zpos (Qden x)).

(** [a > b] on floats. *)
Definition Qgt_bool (a b : Q) : bool := negb (Qle_bool a b).

(** The integer nearest to a non-negative rational, ties to even. *)
Definition round_half_even (q : Q) : Z :=
  let n := Qnum q in
  let d := Zpos (Qden q) in
  let f := (n / d)%Z in
  match (2 * (n mod d) ?= d)%Z with
  | Lt => f
  | Gt => (f + 1)%Z
  | Eq => if Z.even f then f else (f + 1)%Z
  end.

(** The binary exponent of a positive rational [a]:
    [2 ^ binade a <= a < 2 ^ (binade a + 1)]. *)
Definition binade (a : Q) : Z :=
  let e0 := (Z.log2 (Qnum a) - Z.log2 (Zpos (Qden a)))%Z in
  if Qle_bool (2 ^ e0) a then e0 else (e0 - 1)%Z.

(** The binary64 value nearest to a positive rational: 53 significant
    bits, the spacing no finer than [2 ^ -1074] (subnormals), ties to the
    even significand. *)
Definition round64_pos (a : Q) : Q :=
  let s := Z.max (binade a - 52) (-1074) in
  Qred (inject_Z (round_half_even (a / 2 ^ s)) * 2 ^ s).

(** Rounding to binary64, the rounding of every arithmetic operation on
    Python floats.  Magnitudes past the largest float, which Python turns
    into [inf], are outside the model (see [finite64]). *)
Definition round64 (q : Q) : Q :=
  match Qnum q with
  | Z0 => 0
  | Zpos _ => round64_pos q
  | Zneg _ => - round64_pos (- q)
  end.

(** The least magnitude that rounds to [inf]: the largest float plus
    half a unit in its last place. *)
Definition FLOAT_OVERFLOW : Q := 2 ^ 1024 - 2 ^ 970.

(** The exact result of an operation rounds to a finite float. *)
Definition finite64 (q : Q) : Prop := Qabs q < FLOAT_OVERFLOW.

(** [a - b] and [a / b] on floats. *)
Definition fl_sub (a b : Q) : Q := round64 (a - b).

Definition fl_div (a b : Q) : Q := round64 (a / b).

(** [Series.cumsum()]: the running sum, first element unchanged. *)
Fixpoint cumsum_from (acc : Q) (l : list Q) : list Q :=
  match l with
  | [] => []
  | x :: r => (acc + x) :: cumsum_from (acc + x) r
  end.

Definition cumsum (l : list Q) : list Q :=
  match l with
  | [] => []
  | x :: r => x :: cumsum_from x r
  end.

(** Pointwise [==] on lists of rationals. *)
Definition Qlist_eq (l1 l2 : list Q) : Prop := Forall2 Qeq l1 l2.

End Num.

(** ** Dates *)

Module Date.

Local Open Scope Z_scope.

(** A [datetime.date] as its ordinal. *)
Definition date := Z.

Definition is_leap (y : Z) : bool :=
  (y mod 4 =? 0) && (negb (y mod 100 =? 0) || (y mod 400 =? 0)).

Definition days_before_year (y : Z) : Z :=
  let y' := y - 1 in y' * 365 + y' / 4 - y' / 100 + y' / 400.

Definition days_in_month (y m : Z) : Z :=
  if m =? 2 then (if is_leap y then 29 else 28)
  else if (m =? 4) || (m =? 6) || (m =? 9) || (m =? 11) then 30
  else 31.

Fixpoint days_before_month_aux (y : Z) (m : nat) : Z :=
  match m with
  | O => 0
  | S k => days_before_month_aux y k + days_in_month y (Z.of_nat (S k))
  end.

Definition days_before_month (y m : Z) : Z :=
  days_before_month_aux y (Z.to_nat (m - 1)).

(** [dt.date(y, m, d).toordinal()]. *)
Definition ymd2ord (y m d : Z) : date :=
  days_before_year y + days_before_month y m + d.

(** [date.min] and [date.max] as ordinals. *)
Definition MINORDINAL : date := 1.
Definition MAXORDINAL : date := Eval cbv in ymd2ord 9999 12 31.

(** [d + dt.timedelta(days = n)]: [OverflowError] outside
    [date.min .. date.max]. *)
Definition add_days (d : date) (n : Z) : option date :=
  let r := d + n in
  if (MINORDINAL <=? r) && (r <=? MAXORDINAL) then Some r else None.

(** [(a - b).days]. *)
Definition days_between (a b : date) : Z := a - b.

End Date.

Export Date(date).

(** ** Data model *)

(** One entry of the crop catalog: [crops[crop_id]].  [stages] is the
    ordered mapping stage name -> cumulative GDD threshold (a Python
    [dict], iterated in insertion order). *)
Record CropParams := mkCropParams {
  t_base : Q;
  t_upper : Q;
  stages : list (string * Q)
}.

(** [stages[name]] / [stages.get(name)]. *)
Fixpoint stages_get (name : string) (st : list (string * Q)) : option Q :=
  match st with
  | [] => None
  | (k, v) :: r => if String.eqb k name then Some v else stages_get name r
  end.

(** The canonical stage sequence. *)
Definition STAGE_ORDER : list string :=
  ["initial"; "development"; "mid_season"; "harvest"].

(** A weather frame: the columns [date], [tmin], [tmax] and, once
    derived, [daily_gdd] and [cumulative_gdd].  The row index is the
    default [RangeIndex], i.e. the position in the lists. *)
Record DataFrame := mkDataFrame {
  col_date : list date;
  col_tmin : list Q;
  col_tmax : list Q;
  col_daily_gdd : option (list Q);
  col_cumulative_gdd : option (list Q)
}.

(** [pd.DataFrame(columns=["date", "tmin", "tmax"])]. *)
Definition empty_frame : DataFrame := mkDataFrame [] [] [] None None.

(** [df.empty] and [len(df)]. *)
Definition df_empty (df : DataFrame) : bool :=
  match col_date df with [] => true | _ => false end.

Definition df_len (df : DataFrame) : nat := length (col_date df).

(** The frame invariant pandas maintains: all columns have one length. *)
Definition df_wf (df : DataFrame) : Prop :=
  length (col_tmin df) = df_len df /\ length (col_tmax df) = df_len df.

(** ** Effects: exceptions, the heap of frames, the call log *)

Inductive exn :=
| KeyError (key : string)
| ValueError (msg : string)
| IndexError
| OverflowError
| EmptySeriesError
| IOError (msg : string).

(** Calls that the properties below talk about. *)
Inductive call :=
| Call_fetch_daily_temp (lat lon : Q) (start_date end_date : date)
| Call_climate_api (lat lon : Q) (start_date end_date : date)
| Call_compute_gdd_series
| Call_summary_today
| Call_build_planning_chart.

Definition loc := nat.

Record State := mkState {
  heap : list DataFrame;
  calls : list call
}.

Inductive result (A : Type) :=
| Ok (a : A)
| Raise (e : exn).
Arguments Ok {A} a.
Arguments Raise {A} e.

Definition M (A : Type) : Type := State -> result A * State.

Definition ret {A} (a : A) : M A := fun s => (Ok a, s).

Definition bind {A B} (m : M A) (k : A -> M B) : M B :=
  fun s => match m s with
           | (Ok a, s') => k a s'
           | (Raise e, s') => (Raise e, s')
           end.

Definition raise {A} (e : exn) : M A := fun s => (Raise e, s).

(** [try: m  except Exception as e: h e]. *)
Definition try_except {A} (m : M A) (h : exn -> M A) : M A :=
  fun s => match m s with
           | (Ok a, s') => (Ok a, s')
           | (Raise e, s') => h e s'
           end.

Declare Scope py_scope.
Delimit Scope py_scope with py.
Notation "x <- m ;; k" := (bind m (fun x => k))
  (at level 100, m at next level, right associativity) : py_scope.
Notation "m ;;; k" := (bind m (fun _ => k))
  (at level 100, right associativity) : py_scope.
Local Open Scope py_scope.

Definition log (c : call) : M unit :=
  fun s => (Ok tt, mkState (heap s) (calls s ++ [c])).

(** A new frame object; its reference is returned. *)
Definition alloc (df : DataFrame) : M loc :=
  fun s => (Ok (length (heap s)), mkState (heap s ++ [df]) (calls s)).

(** Reading through a reference. *)
Definition deref (l : loc) : M DataFrame :=
  fun s => match heap s !! l with
           | Some df => (Ok df, s)
           | None => (Raise (KeyError "dangling frame reference"), s)
           end.

(** In-place update of the object behind a reference. *)
Definition update (l : loc) (f : DataFrame -> DataFrame) : M unit :=
  fun s => match heap s !! l with
           | Some df => (Ok tt, mkState (<[l := f df]> (heap s)) (calls s))
           | None => (Raise (KeyError "dangling frame reference"), s)
           end.

(** [df.copy()]: a fresh object with the same contents. *)
Definition df_copy (l : loc) : M loc :=
  df <- deref l ;; alloc df.

(** [df["daily_gdd"] = col] and [df["cumulative_gdd"] = col]. *)
Definition set_daily_gdd (col : list Q) (df : DataFrame) : DataFrame :=
  mkDataFrame (col_date df) (col_tmin df) (col_tmax df) (Some col)
              (col_cumulative_gdd df).

Definition set_cumulative_gdd (col : list Q) (df : DataFrame) : DataFrame :=
  mkDataFrame (col_date df) (col_tmin df) (col_tmax df) (col_daily_gdd df)
              (Some col).

(** [df[name]] for a derived column: [KeyError] when it is absent. *)
Definition get_column (name : string) (c : option (list Q)) : M (list Q) :=
  match c with
  | Some col => ret col
  | None => raise (KeyError name)
  end.

(** The display name of a location: the geocoder's name when the
    location store has one, else the f-string ["{lat}, {lon}"]. *)
Inductive LocationName :=
| LocNamed (name : string)
| LocCoords (lat lon : Q).

(** ** The module [project] (imported by [app.py]) *)

Module Project.

Local Open Scope Q_scope.

(** Modelled from the spec: [compute_daily_gdd] is imported from
    [project], whose source is not available; section 4.1 gives its
    formula: the maximum is capped at [t_upper], the minimum is raised
    to [t_base], the mean is taken relative to [t_base], and the result
    is floored at 0. *)
Definition compute_daily_gdd (tmin tmax t_base t_upper : Q) : Q :=
  let adjusted_max := Qmin tmax t_upper in
  let adjusted_min := Qmax tmin t_base in
  let daily := (adjusted_max + adjusted_min) / 2 - t_base in
  Qmax 0 daily.

(** The value [determine_growing_stage] returns. *)
Record Classification := mkClassification {
  stage : string;
  stage_progress : Q;
  overall_progress : Q
}.

(** Walking the thresholds in ascending order: the first stage whose
    threshold is not exceeded is the current one, with the fraction of
    the way from the previous threshold ([prev], 0 for the first
    stage); past the last threshold the last stage is terminal at
    100%. *)
Fixpoint walk_stages (cumulative_gdd prev : Q) (st : list (string * Q))
  : option (string * Q) :=
  match st with
  | [] => None
  | (name, threshold) :: rest =>
      if Qle_bool cumulative_gdd threshold
      then Some (name, (cumulative_gdd - prev) / (threshold - prev))
      else match rest with
           | [] => Some (name, 1)
           | _ :: _ => walk_stages cumulative_gdd threshold rest
           end
  end.

(** Modelled from the spec: [determine_growing_stage] (the spec's
    [classify]) is imported from [project], whose source is not
    available; section 4.2 gives the stage rule, the stage progress and
    [overall_progress = min(cumulative_gdd / harvest_threshold, 1.0)]. *)
Definition determine_growing_stage (cumulative_gdd : Q)
    (st : list (string * Q)) : option Classification :=
  match walk_stages cumulative_gdd 0 st, stages_get "harvest" st with
  | Some (name, progress), Some harvest_threshold =>
      Some (mkClassification name progress
              (Qmin (cumulative_gdd / harvest_threshold) 1))
  | _, _ => None
  end.

(** Position of a stage in the canonical sequence. *)
Fixpoint index_of (name : string) (l : list string) : nat :=
  match l with
  | [] => O
  | k :: r => if String.eqb k name then O else S (index_of name r)
  end.

Definition stage_index (name : string) : nat := index_of name STAGE_ORDER.

(** Modelled from the spec: the aggregate [CropSeason] is imported from
    [project], whose source is not available; section 3 lists its
    fields.  [weather] is a reference to the caller's frame. *)
Record CropSeason := mkCropSeason {
  crop_id : string;
  planting_date : date;
  weather : loc;
  location : LocationName;
  params : CropParams
}.

(** The value [summary_today] returns. *)
Record StageSummary := mkStageSummary {
  sum_date : date;
  sum_cumulative_gdd : Q;
  sum_stage : string;
  sum_stage_progress : Q;
  sum_overall_progress : Q
}.

(** Modelled from the spec: [CropSeason.compute_gdd_series] (section
    4.3) applies [compute_daily_gdd] to every row in date order and
    carries the running sum; the derived columns are appended to the
    season's weather series. *)
Definition compute_gdd_series (season : CropSeason) : M unit :=
  (log Call_compute_gdd_series ;;;
   df <- deref (weather season) ;;
   let p := params season in
   let daily := zip_with
                  (fun tmin tmax =>
                     compute_daily_gdd tmin tmax (t_base p) (t_upper p))
                  (col_tmin df) (col_tmax df) in
   update (weather season)
     (fun df => set_cumulative_gdd (Num.cumsum daily)
                  (set_daily_gdd daily df)))%py.

(** Modelled from the spec: [CropSeason.summary_today] (section 4.3)
    classifies the most recent day of the series and reports an error
    condition on an empty series. *)
Definition summary_today (season : CropSeason) : M StageSummary :=
  (log Call_summary_today ;;;
   df <- deref (weather season) ;;
   cum <- get_column "cumulative_gdd" (col_cumulative_gdd df) ;;
   match last (col_date df), last cum with
   | Some d, Some c =>
       match determine_growing_stage c (stages (params season)) with
       | Some cl =>
           ret (mkStageSummary d c (stage cl) (stage_progress cl)
                  (overall_progress cl))
       | None => raise (KeyError "harvest")
       end
   | _, _ => raise EmptySeriesError
   end)%py.

End Project.

Export Project.

(** ** The application module [app.py] *)

Module App.

Local Open Scope Q_scope.

(** *** The outside world *)

(** The [daily] object of a climate API response; a missing key is
    [None], a JSON [null] temperature is [None] inside the list. *)
Record ClimateDaily := mkClimateDaily {
  time : option (list date);
  temperature_2m_min : option (list (option Q));
  temperature_2m_max : option (list (option Q))
}.

Record ClimateData := mkClimateData {
  daily : option ClimateDaily
}.

Record World := mkWorld {
  (** [dt.date.today()] *)
  today : date;
  (** [dt.date.fromisoformat]; [None] stands for [ValueError] *)
  fromisoformat : string -> option date;
  (** [crops_data.crops] *)
  crops : gmap string CropParams;
  (** [project.fetch_daily_temp]: the historical weather provider *)
  daily_temp_api : Q -> Q -> date -> date -> result DataFrame;
  (** [requests.get(...)], [raise_for_status()] and [.json()] on the
      climate endpoint *)
  climate_api : Q -> Q -> date -> date -> result ClimateData
}.

(** *** Figures *)

Record Trace := mkTrace {
  tr_name : string;
  tr_x : list Z;
  tr_y : list Q
}.

(** The annotation of a threshold line: the stage title alone, the
    stage title with the estimated date, or the stage title with
    ["> {n}d"]. *)
Inductive Annotation :=
| AnnStage (stage_name : string)
| AnnReached (stage_name : string) (est_date : date)
| AnnBeyond (stage_name : string) (days : nat).

Record HLine := mkHLine {
  hl_y : Q;
  hl_annotation : Annotation
}.

Inductive Title :=
| TitleProgress (crop_id : string) (location : LocationName)
| TitleProjected (crop_id : string) (location : LocationName)
| TitleTemperature (location : LocationName).

Record Figure := mkFigure {
  fig_traces : list Trace;
  fig_hlines : list HLine;
  fig_title : option Title
}.

(** [go.Figure()] *)
Definition Figure_new : Figure := mkFigure [] [] None.

Definition add_trace (t : Trace) (fig : Figure) : Figure :=
  mkFigure (fig_traces fig ++ [t]) (fig_hlines fig) (fig_title fig).

Definition add_hline (y : Q) (a : Annotation) (fig : Figure) : Figure :=
  mkFigure (fig_traces fig) (fig_hlines fig ++ [mkHLine y a]) (fig_title fig).

Definition update_layout (t : Title) (fig : Figure) : Figure :=
  mkFigure (fig_traces fig) (fig_hlines fig) (Some t).

(** [list(range(1, n + 1))] *)
Definition x_days_of (n : nat) : list Z := map Z.of_nat (seq 1 n).

(** *** [fetch_climate_temp] *)

(** [float(t) if t is not None else 0.0] *)
Definition float_or_zero (t : option Q) : Q :=
  match t with
  | Some v => v
  | None => 0
  end.

Definition fetch_climate_temp (w : World) (latitude longitude : Q)
    (start_date end_date : date) : M loc :=
  (log (Call_climate_api latitude longitude start_date end_date) ;;;
   match climate_api w latitude longitude start_date end_date with
   | Raise e => raise e
   | Ok data =>
       let daily := default (mkClimateDaily None None None) (daily data) in
       let dates := default [] (time daily) in
       let tmins := default [] (temperature_2m_min daily) in
       let tmaxs := default [] (temperature_2m_max daily) in
       match dates with
       | [] => alloc empty_frame
       | _ :: _ =>
           let tmin := map float_or_zero tmins in
           let tmax := map float_or_zero tmaxs in
           if (length tmin =? length dates)%nat
              && (length tmax =? length dates)%nat
           then alloc (mkDataFrame dates tmin tmax None None)
           else raise (ValueError "All arrays must be of the same length")
       end
   end)%py.

(** [project.fetch_daily_temp], answered by the world. *)
Definition fetch_daily_temp (w : World) (latitude longitude : Q)
    (start_date end_date : date) : M loc :=
  (log (Call_fetch_daily_temp latitude longitude start_date end_date) ;;;
   match daily_temp_api w latitude longitude start_date end_date with
   | Raise e => raise e
   | Ok df => alloc df
   end)%py.

(** *** Charts *)

(** [build_progress_chart(season)]: Mode A, actual against ideal GDD. *)
Definition build_progress_chart (season : CropSeason) : M Figure :=
  (let fig := Figure_new in
   df <- deref (weather season) ;;
   actual_cumulative <- get_column "cumulative_gdd" (col_cumulative_gdd df) ;;
   let window_days := length actual_cumulative in
   let x_days := x_days_of window_days in
   let t_base := t_base (params season) in
   let t_upper := t_upper (params season) in
   let upper_daily := t_upper - t_base in
   let ideal_gdd := map (fun i => upper_daily * inject_Z i) x_days in
   let fig := add_trace (mkTrace "Ideal GDD" x_days ideal_gdd) fig in
   let fig := add_trace (mkTrace "Actual GDD" x_days actual_cumulative) fig in
   match last x_days, last actual_cumulative with
   | Some x_last, Some y_last =>
       let fig := add_trace (mkTrace "Current" [x_last] [y_last]) fig in
       let fig := fold_left
                    (fun fig '(stage_name, gdd_threshold) =>
                       add_hline gdd_threshold (AnnStage stage_name) fig)
                    (stages (params season)) fig in
       ret (update_layout
              (TitleProgress (crop_id season) (location season)) fig)
   | _, _ => raise IndexError
   end)%py.

(** [weather_df[weather_df["cumulative_gdd"] >= gdd_threshold].index]:
    the row labels of the rows that pass the mask, in row order. *)
Definition reached_index (cumulative_gdd : list Q) (gdd_threshold : Q)
  : list nat :=
  map fst
    (List.filter (fun row => Qle_bool gdd_threshold (snd row))
       (combine (seq 0 (length cumulative_gdd)) cumulative_gdd)).

(** The loop [for stage_name, gdd_threshold in stages.items()] of
    [build_planning_chart]. *)
Fixpoint stage_loop (dates : list date) (cumulative_gdd : list Q)
    (n_days : nat) (items : list (string * Q))
    (fig : Figure) (stage_dates : gmap string date)
  : M (Figure * gmap string date) :=
  match items with
  | [] => ret (fig, stage_dates)
  | (stage_name, gdd_threshold) :: rest =>
      match reached_index cumulative_gdd gdd_threshold with
      | day_idx :: _ =>
          match dates !! day_idx with
          | Some est_date =>
              stage_loop dates cumulative_gdd n_days rest
                (add_hline gdd_threshold (AnnReached stage_name est_date) fig)
                (<[stage_name := est_date]> stage_dates)
          | None => raise (KeyError "date")
          end
      | [] =>
          stage_loop dates cumulative_gdd n_days rest
            (add_hline gdd_threshold (AnnBeyond stage_name n_days) fig)
            stage_dates
      end
  end.

(** [build_planning_chart(weather_df, crop_params, crop_id,
    location_name, planting_date)]: Mode B, projected GDD with the
    stage thresholds; returns the figure and [stage_dates]. *)
Definition build_planning_chart (weather_df : loc) (crop_params : CropParams)
    (crop_id : string) (location_name : LocationName) (planting_date : date)
  : M (Figure * gmap string date) :=
  (log Call_build_planning_chart ;;;
   let fig := Figure_new in
   let t_base := t_base crop_params in
   let t_upper := t_upper crop_params in
   let stages := stages crop_params in
   weather_df <- df_copy weather_df ;;
   df <- deref weather_df ;;
   update weather_df
     (set_daily_gdd
        (zip_with (fun tmin tmax => compute_daily_gdd tmin tmax t_base t_upper)
           (col_tmin df) (col_tmax df))) ;;;
   df <- deref weather_df ;;
   daily_gdd <- get_column "daily_gdd" (col_daily_gdd df) ;;
   update weather_df (set_cumulative_gdd (Num.cumsum daily_gdd)) ;;;
   df <- deref weather_df ;;
   let x_days := x_days_of (df_len df) in
   projected_gdd <- get_column "cumulative_gdd" (col_cumulative_gdd df) ;;
   let upper_daily := t_upper - t_base in
   let ideal_gdd := map (fun i => upper_daily * inject_Z i) x_days in
   let fig := add_trace (mkTrace "Ideal GDD" x_days ideal_gdd) fig in
   let fig := add_trace
                (mkTrace "Projected GDD (Climate Model)" x_days projected_gdd)
                fig in
   r <- stage_loop (col_date df) projected_gdd (length x_days) stages fig ∅ ;;
   let '(fig, stage_dates) := r in
   ret (update_layout (TitleProjected crop_id location_name) fig,
        stage_dates))%py.

(** [build_temperature_chart(weather_df, location_name, planting_date)] *)
Definition build_temperature_chart (weather_df : loc)
    (location_name : LocationName) (planting_date : date) : M Figure :=
  (df <- deref weather_df ;;
   let dates := col_date df in
   let fig := add_trace (mkTrace "Tmax" dates (col_tmax df)) Figure_new in
   let fig := add_trace (mkTrace "Tmin" dates (col_tmin df)) fig in
   ret (update_layout (TitleTemperature location_name) fig))%py.

(** [build_stage_table(crop_params, crop_label)]: one row per canonical
    stage with [stages.get(stage_name, "N/A")]. *)
Record StageTable := mkStageTable {
  table_label : string;
  table_rows : list (string * option Q)
}.

Definition build_stage_table (crop_params : CropParams) (crop_label : string)
  : StageTable :=
  mkStageTable crop_label
    (map (fun stage_name => (stage_name, stages_get stage_name (stages crop_params)))
       STAGE_ORDER).

(** *** The callback [compute_gdd] *)

(** The [style] of the download button: hidden, or the visible
    [download_btn_style]. *)
Inductive Style :=
| DisplayNone
| DownloadBtnStyle.

(** One paragraph of the projected stage list:
    ["{label}: {est} ({days_from_plant} days)"] or
    ["{label}: beyond projection range"]. *)
Inductive StageLine :=
| LineDate (stage_name : string) (est : date) (days_from_plant : Z)
| LineBeyond (stage_name : string).

(** The [results] component of the callback's return value. *)
Inductive Results :=
| Message (text : string)
| FetchFailed (text : string) (e : exn)
| CheckResults (crop_id : string) (summary : StageSummary)
| PlanResults (crop_id : string) (planting_date : date)
    (lines : list StageLine).

Inductive ReportData :=
| ReportCheck (location : LocationName) (lat lon : Q) (crop_id : string)
    (t_base t_upper : Q) (planting_date : date) (summary : StageSummary)
| ReportPlan (location : LocationName) (lat lon : Q) (crop_id : string)
    (t_base t_upper : Q) (planting_date : date)
    (stage_dates : gmap string date).

(** The callback's 7-tuple; the empty dict [{}] of the two stores is
    [None]. *)
Record Output := mkOutput {
  out_stage_table : option StageTable;
  out_results : Results;
  out_chart : Figure;
  out_temp_chart : Figure;
  out_download_style : Style;
  out_report : option ReportData;
  out_chart_json : option Figure
}.

(** The early returns: a message, two empty figures, the download
    button hidden, both stores empty. *)
Definition rejected (table : option StageTable) (r : Results) : Output :=
  mkOutput table r Figure_new Figure_new DisplayNone None None.

(** [not s] on an optional string. *)
Definition falsy (s : option string) : bool :=
  match s with
  | None => true
  | Some s => String.eqb s ""
  end.

(** [dt.date(2050, 12, 31)] *)
Definition DATE_CEILING : date := Eval cbv in Date.ymd2ord 2050 12 31.

(** The local [estimated_days] of the plan branch, after the
    [min(estimated_days, 365)]. *)
Definition plan_estimated_days (crop_params : CropParams) (harvest_gdd : Q)
  : Z :=
  let max_daily := Num.fl_sub (t_upper crop_params) (t_base crop_params) in
  let estimated_days :=
    if Num.Qgt_bool max_daily 0
    then (Num.py_int (Num.fl_div harvest_gdd max_daily) + 60)%Z
    else 365%Z in
  Z.min estimated_days 365.

(** The local [end_date] of the plan branch. *)
Definition plan_end_date (planting_date : date) (estimated_days : Z)
  : M date :=
  match Date.add_days planting_date estimated_days with
  | None => raise OverflowError
  | Some end_date =>
      ret (if (end_date >? DATE_CEILING)%Z then DATE_CEILING else end_date)
  end.

(** The loop over the four stage names that renders [stage_dates]. *)
Definition stage_lines (stage_dates : gmap string date) (planting_date : date)
  : list StageLine :=
  map (fun stage_name =>
         match stage_dates !! stage_name with
         | Some est => LineDate stage_name est (Date.days_between est planting_date)
         | None => LineBeyond stage_name
         end)
      STAGE_ORDER.

(** Mode A, after the mode test. *)
Definition check_progress (w : World) (stage_table : StageTable)
    (lat lon : Q) (crop_id : string) (crop_params : CropParams)
    (planting_date : date) (location_name : LocationName) : M Output :=
  (if (planting_date >? today w)%Z
   then ret (rejected (Some stage_table)
               (Message "Check mode requires a past planting date."))
   else
     fetched <- try_except
                  (weather <- fetch_daily_temp w lat lon planting_date (today w) ;;
                   ret (inl weather))
                  (fun e => ret (inr e)) ;;
     match fetched with
     | inr e =>
         ret (rejected (Some stage_table)
                (FetchFailed "Could not fetch weather data: " e))
     | inl weather =>
         df <- deref weather ;;
         if df_empty df
         then ret (rejected (Some stage_table)
                     (Message "No weather data available for this location and date range."))
         else
           let season := mkCropSeason crop_id planting_date weather
                           location_name crop_params in
           compute_gdd_series season ;;;
           summary <- summary_today season ;;
           let results := CheckResults crop_id summary in
           chart_fig <- build_progress_chart season ;;
           temp_fig <- build_temperature_chart weather location_name planting_date ;;
           let report_data :=
             ReportCheck location_name lat lon crop_id (t_base crop_params)
               (t_upper crop_params) planting_date summary in
           ret (mkOutput (Some stage_table) results chart_fig temp_fig
                  DownloadBtnStyle (Some report_data) (Some chart_fig))
     end)%py.

(** Mode B, after the mode test. *)
Definition plan_harvest (w : World) (stage_table : StageTable)
    (lat lon : Q) (crop_id : string) (crop_params : CropParams)
    (planting_date : date) (location_name : LocationName) : M Output :=
  (if (planting_date <=? today w)%Z
   then ret (rejected (Some stage_table)
               (Message "Plan mode requires a future planting date."))
   else
     match stages_get "harvest" (stages crop_params) with
     | None => raise (KeyError "harvest")
     | Some harvest_gdd =>
         let estimated_days := plan_estimated_days crop_params harvest_gdd in
         end_date <- plan_end_date planting_date estimated_days ;;
         fetched <- try_except
                      (weather <- fetch_climate_temp w lat lon planting_date end_date ;;
                       ret (inl weather))
                      (fun e => ret (inr e)) ;;
         match fetched with
         | inr e =>
             ret (rejected (Some stage_table)
                    (FetchFailed "Could not fetch climate data: " e))
         | inl weather =>
             df <- deref weather ;;
             if df_empty df
             then ret (rejected (Some stage_table)
                         (Message "No climate data available for this location and date range."))
             else
               r <- build_planning_chart weather crop_params crop_id
                      location_name planting_date ;;
               let '(chart_fig, stage_dates) := r in
               temp_fig <- build_temperature_chart weather location_name planting_date ;;
               let results :=
                 PlanResults crop_id planting_date
                   (stage_lines stage_dates planting_date) in
               let report_data :=
                 ReportPlan location_name lat lon crop_id (t_base crop_params)
                   (t_upper crop_params) planting_date stage_dates in
               ret (mkOutput (Some stage_table) results chart_fig temp_fig
                      DownloadBtnStyle (Some report_data) (Some chart_fig))
         end
     end)%py.

(** [compute_gdd(n_clicks, lat, lon, crop_name, variant,
    planting_date_str, mode, loc_data)].  [loc_data] is the name held
    by the location store, if any. *)
Definition compute_gdd (w : World) (n_clicks : Z) (lat lon : option Q)
    (crop_name variant planting_date_str : option string) (mode : string)
    (loc_data : option string) : M Output :=
  match lat, lon with
  | Some lat, Some lon =>
      if falsy crop_name || falsy variant
      then ret (rejected None (Message "Please select a crop and season."))
      else
        let crop_id := default "" crop_name ++ "_" ++ default "" variant in
        if falsy planting_date_str
        then ret (rejected None (Message "Please select a planting date."))
        else
          match fromisoformat w (default "" planting_date_str) with
          | None => ret (rejected None (Message "Invalid planting date."))
          | Some planting_date =>
              let location_name :=
                match loc_data with
                | Some name => LocNamed name
                | None => LocCoords lat lon
                end in
              match crops w !! crop_id with
              | None => raise (KeyError crop_id)
              | Some crop_params =>
                  let stage_table := build_stage_table crop_params crop_id in
                  if String.eqb mode "check"
                  then check_progress w stage_table lat lon crop_id
                         crop_params planting_date location_name
                  else plan_harvest w stage_table lat lon crop_id
                         crop_params planting_date location_name
              end
          end
  | _, _ => ret (rejected None (Message "Please enter or search for a location."))
  end.

(** *** [toggle_mode] *)

(** [toggle_mode(mode)]: the date picker's [max_date_allowed],
    [min_date_allowed] and [date].  An ISO date string stands for the
    date it denotes, so ["2050-12-31"] is [DATE_CEILING]. *)
Definition toggle_mode (w : World) (mode : string)
  : option date * option date * option date :=
  let today := today w in
  if String.eqb mode "check"
  then (Some today, None, None)
  else (Some DATE_CEILING, Some today, None).

(** *** [crop_variants] and [update_variant_options] *)

(** [cid.rsplit("_", 1)] when it has two parts: the text before and
    after the last underscore; [None] when [cid] has no underscore. *)
Fixpoint rsplit_underscore (cid : string) : option (string * string) :=
  match cid with
  | EmptyString => None
  | String c rest =>
      match rsplit_underscore rest with
      | Some (before, after) => Some (String c before, after)
      | None => if Ascii.eqb c "_"%char then Some (EmptyString, rest) else None
      end
  end.

(** [crop_name = parts[0]] and
    [variant = parts[1] if len(parts) == 2 else "default"]. *)
Definition split_crop_id (cid : string) : string * string :=
  match rsplit_underscore cid with
  | Some (crop_name, variant) => (crop_name, variant)
  | None => (cid, "default")
  end.

(** [sorted(d.keys())] *)
Definition sorted_keys {A : Type} (d : gmap string A) : list string :=
  merge_sort String.le (map fst (map_to_list d)).

(** [crop_variants.setdefault(crop_name, []).append(variant)] *)
Definition add_variant (acc : gmap string (list string)) (cid : string)
  : gmap string (list string) :=
  let '(crop_name, variant) := split_crop_id cid in
  <[crop_name := (default [] (acc !! crop_name) ++ [variant])%list]> acc.

(** The module-level [crop_variants], built from the keys of [crops]. *)
Definition crop_variants (w : World) : gmap string (list string) :=
  fold_left add_variant (sorted_keys (crops w)) ∅.

(** The values of [crop_name_options]. *)
Definition crop_name_options (w : World) : list string :=
  sorted_keys (crop_variants w).

(** [update_variant_options(crop_name)]: the values of the variant
    options, and the variant selected by default. *)
Definition update_variant_options (w : World) (crop_name : option string)
  : list string * option string :=
  if falsy crop_name then ([], None)
  else
    let variants := default [] (crop_variants w !! default "" crop_name) in
    let default_variant :=
      match variants with
      | [only] => Some only
      | _ => None
      end in
    (variants, default_variant).

(** *** [geocode_location] and [geocode_search] *)

(** One entry of the geocoder's ["results"]; an absent key is [None]. *)
Record GeoResult := mkGeoResult {
  geo_name : option string;
  geo_admin1 : option string;
  geo_country : option string;
  geo_latitude : option Q;
  geo_longitude : option Q
}.

Record GeoWorld := mkGeoWorld {
  (** [requests.get(url, params)], [raise_for_status()] and [.json()] on
      the geocoding endpoint, for the query [name]; the value is
      [data.get("results")] *)
  geocoding_api : string -> result (option (list GeoResult));
  (** [str.strip] *)
  str_strip : string -> string;
  (** [round(x, 4)] *)
  round4 : Q -> Q
}.

(** The dict [geocode_location] returns. *)
Record Place := mkPlace {
  p_name : string;
  p_latitude : Q;
  p_longitude : Q
}.

(** [place_name.split(",")[0]] when ["," in place_name]. *)
Fixpoint before_comma (s : string) : option string :=
  match s with
  | EmptyString => None
  | String c rest =>
      if Ascii.eqb c ","%char
      then Some EmptyString
      else option_map (String c) (before_comma rest)
  end.

(** The loop [for query in queries] of [geocode_location]; the list of
    queries sent so far is threaded through. *)
Fixpoint geocode_queries (gw : GeoWorld) (queries : list string)
    (sent : list string) : result (list GeoResult) * list string :=
  match queries with
  | [] => (Ok [], sent)
  | query :: rest =>
      match geocoding_api gw query with
      | Raise e => (Raise e, (sent ++ [query])%list)
      | Ok data =>
          match default [] data with
          | [] => geocode_queries gw rest (sent ++ [query])%list
          | top :: more => (Ok (top :: more), (sent ++ [query])%list)
          end
      end
  end.

(** [x if x else default] on an optional string. *)
Definition truthy (s : option string) : list string :=
  match s with
  | Some (String c r) => [String c r]
  | _ => []
  end.

Definition geocode_location (gw : GeoWorld) (place_name : string)
    (sent : list string) : result (option Place) * list string :=
  let queries :=
    place_name ::
    match before_comma place_name with
    | Some first => [str_strip gw first]
    | None => []
    end in
  match geocode_queries gw queries sent with
  | (Raise e, sent) => (Raise e, sent)
  | (Ok [], sent) => (Ok None, sent)
  | (Ok (top :: _), sent) =>
      let name_parts :=
        ([default "" (geo_name top)] ++ truthy (geo_admin1 top)
         ++ truthy (geo_country top))%list in
      match geo_latitude top, geo_longitude top with
      | None, _ => (Raise (KeyError "latitude"), sent)
      | Some _, None => (Raise (KeyError "longitude"), sent)
      | Some latitude, Some longitude =>
          (Ok (Some (mkPlace (String.concat ", " name_parts)
                       latitude longitude)), sent)
      end
  end.

(** The four outputs of [geocode_search]; [None] is [no_update]. *)
Record SearchOutput := mkSearchOutput {
  search_lat : option Q;
  search_lon : option Q;
  search_store : option Place;
  search_text : string
}.

Definition geocode_search (gw : GeoWorld) (n_clicks : Z)
    (search_text : option string) (sent : list string)
  : SearchOutput * list string :=
  if falsy search_text
     || String.eqb (str_strip gw (default "" search_text)) ""
  then (mkSearchOutput None None None "Please enter a location name.", sent)
  else
    match geocode_location gw (str_strip gw (default "" search_text)) sent with
    | (Raise _, sent) =>
        (mkSearchOutput None None None
           "Geocoding failed. Check your connection.", sent)
    | (Ok None, sent) =>
        (mkSearchOutput None None None
           "Location not found. Try a different term.", sent)
    | (Ok (Some place), sent) =>
        (mkSearchOutput (Some (round4 gw (p_latitude place)))
           (Some (round4 gw (p_longitude place)))
           (Some place) (p_name place), sent)
    end.

(** *** [update_map] and [build_map_figure] *)

(** The map figure: its centre, zoom, and the marker if there is one
    (position and hover text). *)
Inductive MarkerText :=
| MarkerName (name : string)
| MarkerCoords (lat lon : Q).

Record MapFigure := mkMapFigure {
  map_center : Q * Q;
  map_zoom : Z;
  map_marker : option (Q * Q * MarkerText)
}.

(** [build_map_figure(lat=None, lon=None, location_name="")] *)
Definition build_map_figure (lat lon : option Q) (location_name : string)
  : MapFigure :=
  let center_lat := default 20 lat in
  let center_lon := default 0 lon in
  let zoom := match lat with Some _ => 10%Z | None => 1%Z end in
  mkMapFigure (center_lat, center_lon) zoom
    match lat, lon with
    | Some la, Some lo =>
        Some (la, lo,
              if String.eqb location_name "" then MarkerCoords la lo
              else MarkerName location_name)
    | _, _ => None
    end.

(** [update_map(lat, lon, loc_data)]; [loc_data] is the name held by the
    location store, if any. *)
Definition update_map (lat lon : option Q) (loc_data : option string)
  : MapFigure :=
  match lat, lon with
  | Some la, Some lo => build_map_figure (Some la) (Some lo) (default "" loc_data)
  | _, _ => build_map_figure None None ""
  end.

End App.

Export App.

(** * Specification vocabulary *)

Section Vocabulary.

Local Open Scope Q_scope.

(** [d] is the date of the first row whose cumulative value reaches
    [thr]. *)
Definition first_reached (dates : list date) (cum : list Q) (thr : Q)
    (d : date) : Prop :=
  exists (i : nat) (c : Q),
    cum !! i = Some c /\ thr <= c /\ dates !! i = Some d /\
    forall (j : nat) (c' : Q), (j < i)%nat -> cum !! j = Some c' -> c' < thr.

(** No row reaches [thr]. *)
Definition never_reached (cum : list Q) (thr : Q) : Prop :=
  forall (i : nat) (c : Q), cum !! i = Some c -> c < thr.

(** What [stage_dates] holds for a stage with threshold [thr]. *)
Definition stage_date_spec (dates : list date) (cum : list Q) (thr : Q)
    (entry : option date) : Prop :=
  match entry with
  | Some d => first_reached dates cum thr d
  | None => never_reached cum thr
  end.

(** [reached_index] with the row labels starting at [k]. *)
Definition reached_from (k : nat) (cum : list Q) (thr : Q) : list nat :=
  map fst
    (List.filter (fun row => Qle_bool thr (snd row))
       (combine (seq k (length cum)) cum)).

(** The [daily_gdd] column [build_planning_chart] derives. *)
Definition daily_gdd_column (p : CropParams) (df : DataFrame) : list Q :=
  zip_with (fun tmin tmax => compute_daily_gdd tmin tmax (t_base p) (t_upper p))
    (col_tmin df) (col_tmax df).

(** The [cumulative_gdd] column it derives from that. *)
Definition cumulative_gdd_column (p : CropParams) (df : DataFrame) : list Q :=
  Num.cumsum (daily_gdd_column p df).

(** The private copy once both columns are appended. *)
Definition planned_frame (p : CropParams) (df : DataFrame) : DataFrame :=
  set_cumulative_gdd (cumulative_gdd_column p df)
    (set_daily_gdd (daily_gdd_column p df) df).

(** The crop of the concrete scenarios. *)
Definition scenario_crop : CropParams :=
  mkCropParams 10 30
    [("initial", 50); ("development", 150); ("mid_season", 400);
     ("harvest", 600)].

(** The planting date of the plan scenarios, 1 June 2030; the series of
    the cumulative scenario is five days from it, each 15 to 25 degrees. *)
Definition scenario_start : date := Eval cbv in Date.ymd2ord 2030 6 1.

(** Five days from [start], each 15 to 25 degrees. *)
Definition five_days_from (start : date) : DataFrame :=
  mkDataFrame (map (fun k => (start + k)%Z) [0; 1; 2; 3; 4]%Z)
    (repeat 15 5) (repeat 25 5) None None.

(** The weather of the cumulative scenario. *)
Definition scenario_frame : DataFrame := five_days_from scenario_start.

(** The three lists [fetch_climate_temp] reads from a response. *)
Definition response_dates (data : ClimateData) : list date :=
  default [] (time (default (mkClimateDaily None None None) (daily data))).

Definition response_tmins (data : ClimateData) : list (option Q) :=
  default []
    (temperature_2m_min (default (mkClimateDaily None None None) (daily data))).

Definition response_tmaxs (data : ClimateData) : list (option Q) :=
  default []
    (temperature_2m_max (default (mkClimateDaily None None None) (daily data))).

(** A response pandas accepts: some dates, and as many temperatures. *)
Definition response_wf (data : ClimateData) : Prop :=
  response_dates data <> [] /\
  length (response_tmins data) = length (response_dates data) /\
  length (response_tmaxs data) = length (response_dates data).

(** The frame built from a response. *)
Definition response_frame (data : ClimateData) : DataFrame :=
  mkDataFrame (response_dates data)
    (map float_or_zero (response_tmins data))
    (map float_or_zero (response_tmaxs data)) None None.

(** [crop_id = f"{crop_name}_{variant}"] *)
Definition request_crop_id (crop_name variant : option string) : string :=
  (default "" crop_name ++ "_" ++ default "" variant)%string.

(** [location_name]: the stored name, else the coordinates. *)
Definition request_location (loc_data : option string) (la lo : Q)
  : LocationName :=
  match loc_data with
  | Some name => LocNamed name
  | None => LocCoords la lo
  end.

(** A request that passes the input checks that precede the mode test:
    a location, a crop and variant of the catalog, a planting date that
    parses. *)
Definition valid_request (w : World) (lat lon : option Q)
    (crop_name variant planting_date_str : option string)
    (la lo : Q) (pd : date) (p : CropParams) : Prop :=
  lat = Some la /\ lon = Some lo /\
  falsy crop_name = false /\ falsy variant = false /\
  falsy planting_date_str = false /\
  fromisoformat w (default "" planting_date_str) = Some pd /\
  crops w !! request_crop_id crop_name variant = Some p.

(** Today in the scenarios, 1 May 2030, and a planting date before it. *)
Definition scenario_today : date := Eval cbv in Date.ymd2ord 2030 5 1.

Definition scenario_past : date := Eval cbv in Date.ymd2ord 2030 4 1.

(** A catalog with the scenario crop and a slow crop whose heat
    requirement is 2000 GDD at no more than 5 GDD a day. *)
Definition slow_crop : CropParams :=
  mkCropParams 10 15
    [("initial", 200); ("development", 700); ("mid_season", 1400);
     ("harvest", 2000)].

(** [crops] in the scenarios. *)
Definition scenario_catalog : gmap string CropParams :=
  <["maize_wet" := scenario_crop]> (<["slow_dry" := slow_crop]> ∅).

(** [dt.date.fromisoformat] on the two date strings of the scenarios. *)
Definition scenario_fromisoformat (s : string) : option date :=
  if String.eqb s "2030-06-01" then Some scenario_start
  else if String.eqb s "2030-04-01" then Some scenario_past
  else None.

(** A climate response for eight days from the planting date, each 15 to
    25 degrees, whose second minimum is [null]. *)
Definition scenario_response : ClimateData :=
  mkClimateData
    (Some (mkClimateDaily
             (Some (map (fun k => (scenario_start + k)%Z)
                      [0; 1; 2; 3; 4; 5; 6; 7]%Z))
             (Some [Some 15; None; Some 15; Some 15; Some 15; Some 15;
                    Some 15; Some 15])
             (Some (repeat (Some 25) 8)))).

(** A response without any day. *)
Definition empty_response : ClimateData :=
  mkClimateData (Some (mkClimateDaily (Some []) (Some []) (Some []))).

(** The world of the scenarios. *)
Definition scenario_world : World :=
  mkWorld scenario_today scenario_fromisoformat scenario_catalog
    (fun _ _ start_date _ => Ok (five_days_from start_date))
    (fun _ _ _ _ => Ok scenario_response).

(** The same world when both providers have no rows to offer. *)
Definition empty_world : World :=
  mkWorld scenario_today scenario_fromisoformat scenario_catalog
    (fun _ _ _ _ => Ok empty_frame)
    (fun _ _ _ _ => Ok empty_response).

(** The state before a callback: no frame, no call. *)
Definition state0 : State := mkState [] [].

(** The horizon of a plan request that passes the mode guard. *)
Definition plan_horizon (p : CropParams) (pd : date) (e : date) : Prop :=
  exists (hg : Q) (e0 : date),
    stages_get "harvest" (stages p) = Some hg /\
    Date.add_days pd (plan_estimated_days p hg) = Some e0 /\
    e = Z.min e0 DATE_CEILING.

(** One row per calendar day, in ascending date order. *)
Definition dates_ascending (dates : list date) : Prop :=
  forall (i j : nat) (di dj : date),
    (i < j)%nat -> dates !! i = Some di -> dates !! j = Some dj ->
    (di < dj)%Z.

(** Thresholds strictly increasing, starting above [prev]. *)
Fixpoint thresholds_increasing (prev : Q) (st : list (string * Q)) : Prop :=
  match st with
  | [] => True
  | (_, thr) :: rest => prev < thr /\ thresholds_increasing thr rest
  end.

(** A validly ordered threshold mapping: the four canonical stages in
    order, thresholds positive and strictly increasing. *)
Definition valid_stages (st : list (string * Q)) : Prop :=
  map fst st = STAGE_ORDER /\ thresholds_increasing 0 st.

(** The threshold below stage [i]: 0 for the first stage. *)
Definition previous_threshold (st : list (string * Q)) (i : nat) : Q :=
  match i with
  | O => 0%Q
  | S k => default 0%Q (snd <$> st !! k)
  end.

(** A cool-season crop with [t_base = 5.4]: the float difference
    [25.0 - 5.4] is [19.6], the float quotient [1960 / 19.6] lies just
    below 100. *)
Definition cool_crop : CropParams :=
  mkCropParams (27 # 5) 25
    [("initial", 300); ("development", 800); ("mid_season", 1400);
     ("harvest", 1960)].

Definition cool_world : World :=
  mkWorld scenario_today scenario_fromisoformat
    (<["cabbage_dry" := cool_crop]> scenario_catalog)
    (fun _ _ start_date _ => Ok (five_days_from start_date))
    (fun _ _ _ _ => Ok scenario_response).

(** A crop whose stage mapping lacks "harvest", and a world that has it
    in its catalog under the id "herb_dry". *)
Definition herb_crop : CropParams :=
  mkCropParams 5 25 [("initial", 40); ("development", 120)].

Definition herb_world : World :=
  mkWorld scenario_today scenario_fromisoformat
    (<["herb_dry" := herb_crop]> scenario_catalog)
    (fun _ _ start_date _ => Ok (five_days_from start_date))
    (fun _ _ _ _ => Ok scenario_response).

(** A climate response with three dates but only two minimum
    temperatures. *)
Definition ragged_response : ClimateData :=
  mkClimateData
    (Some (mkClimateDaily
             (Some (map (fun k => (scenario_start + k)%Z) [0; 1; 2]%Z))
             (Some [Some 15; Some 15])
             (Some (repeat (Some 25) 3)))).

(** Worlds whose providers fail, or answer with the ragged response. *)
Definition offline_world : World :=
  mkWorld scenario_today scenario_fromisoformat scenario_catalog
    (fun _ _ _ _ => Raise (IOError "timeout"))
    (fun _ _ _ _ => Raise (IOError "timeout")).

Definition ragged_world : World :=
  mkWorld scenario_today scenario_fromisoformat scenario_catalog
    (fun _ _ start_date _ => Ok (five_days_from start_date))
    (fun _ _ _ _ => Ok ragged_response).

(** What the seven outputs of the callback have in common: either the
    request was turned down (a message, two empty figures, the download
    button hidden, both stores empty), or there is a result, the button
    shows, and the chart store holds the very figure that is displayed. *)
Definition output_consistent (out : Output) : Prop :=
  (out_download_style out = DisplayNone /\
   out_report out = None /\ out_chart_json out = None /\
   out_chart out = Figure_new /\ out_temp_chart out = Figure_new /\
   (exists text, out_results out = Message text \/
                 exists e, out_results out = FetchFailed text e)) \/
  (out_download_style out = DownloadBtnStyle /\
   out_chart_json out = Some (out_chart out) /\
   is_Some (out_stage_table out) /\
   ((exists cid la lo ln tb tu pd summary,
        out_results out = CheckResults cid summary /\
        out_report out = Some (ReportCheck ln la lo cid tb tu pd summary)) \/
    (exists cid la lo ln tb tu pd sd,
        out_results out = PlanResults cid pd (stage_lines sd pd) /\
        out_report out = Some (ReportPlan ln la lo cid tb tu pd sd)))).

(** A quick crop, and its projection over the five scenario days. *)
Definition quick_crop : CropParams :=
  mkCropParams 10 30
    [("initial", 20); ("development", 40); ("mid_season", 100);
     ("harvest", 200)].

Definition quick_projection : result (Figure * gmap string date) * State :=
  build_planning_chart 0%nat quick_crop "lettuce_dry" (LocNamed "La Trinidad")
    scenario_start (mkState [scenario_frame] []).

(** The season of the check scenario once its series is derived. *)
Definition derived_season : CropSeason :=
  mkCropSeason "maize_wet" scenario_start 0%nat (LocNamed "La Trinidad")
    scenario_crop.

Definition derived_state : State :=
  mkState [planned_frame scenario_crop scenario_frame] [].

(** A date the planting-date picker lets the user select, given the
    bounds [toggle_mode] sets: both bounds are inclusive, a missing
    bound does not restrict. *)
Definition picker_allows (bounds : option date * option date * option date)
    (d : date) : Prop :=
  let '(max_date_allowed, min_date_allowed, _) := bounds in
  match max_date_allowed with Some hi => (d <= hi)%Z | None => True end /\
  match min_date_allowed with Some lo => (lo <= d)%Z | None => True end.

(** A planting date past the date ceiling, 1 March 2051, and a world
    whose date parser knows it and today's date. *)
Definition late_planting : date := Eval cbv in Date.ymd2ord 2051 3 1.

Definition today_world : World :=
  mkWorld scenario_today
    (fun s => if String.eqb s "2030-05-01" then Some scenario_today
              else if String.eqb s "2051-03-01" then Some late_planting
              else None)
    scenario_catalog
    (fun _ _ start_date _ => Ok (five_days_from start_date))
    (fun _ _ _ _ => Ok scenario_response).

(** A world whose catalog has a key without an underscore. *)
Definition plain_world : World :=
  mkWorld scenario_today scenario_fromisoformat
    (<["rice" := scenario_crop]> ∅)
    (fun _ _ start_date _ => Ok (five_days_from start_date))
    (fun _ _ _ _ => Ok scenario_response).






End Vocabulary.

(** * Properties *)

Local Open Scope list_scope.

(** ** The daily contribution and the running sum *)

Section Numeric.

Local Open Scope Q_scope.

Lemma compute_daily_gdd_nonneg tmin tmax tb tu :
  0 <= compute_daily_gdd tmin tmax tb tu.
Proof. unfold compute_daily_gdd. apply Q.le_max_l. Qed.

Lemma cumsum_from_length acc l :
  length (Num.cumsum_from acc l) = length l.
Proof.
  revert acc. induction l as [|x r IH]; intros acc; simpl; [reflexivity|].
  now rewrite IH.
Qed.

Lemma cumsum_length l : length (Num.cumsum l) = length l.
Proof. destruct l; simpl; [reflexivity|]. now rewrite cumsum_from_length. Qed.

Lemma cumsum_from_head acc l x :
  l !! 0%nat = Some x -> Num.cumsum_from acc l !! 0%nat = Some (acc + x).
Proof. destruct l; simpl; intros H; [discriminate|]. now inversion H. Qed.

(** One step of the running sum, inside the tail. *)
Lemma cumsum_from_step acc l i c d :
  Num.cumsum_from acc l !! i = Some c ->
  l !! S i = Some d ->
  Num.cumsum_from acc l !! S i = Some (c + d).
Proof.
  revert acc i c. induction l as [|x r IH]; intros acc i c Hc Hd.
  - discriminate.
  - destruct i as [|i]; simpl in *.
    + inversion Hc; subst. now apply cumsum_from_head.
    + now apply IH.
Qed.

Lemma cumsum_head l : Num.cumsum l !! 0%nat = l !! 0%nat.
Proof. now destruct l. Qed.

Lemma cumsum_step l i c d :
  Num.cumsum l !! i = Some c ->
  l !! S i = Some d ->
  Num.cumsum l !! S i = Some (c + d).
Proof.
  destruct l as [|x r]; [discriminate|].
  destruct i as [|i]; simpl; intros Hc Hd.
  - inversion Hc; subst. destruct r; simpl in *; [discriminate|].
    now inversion Hd.
  - now apply cumsum_from_step.
Qed.

(** The running sum of non-negative terms never decreases. *)
Lemma cumsum_mono l i j a b :
  Forall (fun d => 0 <= d) l ->
  (i <= j)%nat ->
  Num.cumsum l !! i = Some a ->
  Num.cumsum l !! j = Some b ->
  a <= b.
Proof.
  intros Hpos Hij Ha. revert b. induction Hij as [|j Hij IH]; intros b Hb.
  - rewrite Ha in Hb. inversion Hb. apply Qle_refl.
  - assert (Hlen : (S j < length l)%nat).
    { rewrite <- cumsum_length. eapply lookup_lt_Some; eauto. }
    destruct (lookup_lt_is_Some_2 (Num.cumsum l) j) as [c Hc].
    { rewrite cumsum_length. lia. }
    destruct (lookup_lt_is_Some_2 l (S j) Hlen) as [d Hd].
    rewrite (cumsum_step l j c d Hc Hd) in Hb. inversion Hb; subst.
    specialize (IH c Hc).
    assert (0 <= d).
    { rewrite Forall_forall in Hpos. apply Hpos.
      eapply list_elem_of_lookup_2; eauto. }
    lra.
Qed.

End Numeric.

(** ** The stage-date estimator of [build_planning_chart] *)

Section Estimator.

Local Open Scope Q_scope.

Lemma reached_index_from cum thr : reached_index cum thr = reached_from 0 cum thr.
Proof. reflexivity. Qed.

Lemma Qle_bool_false x y : Qle_bool x y = false <-> y < x.
Proof.
  split; intros H.
  - apply Qnot_le_lt. intros Hle. apply Qle_bool_iff in Hle. congruence.
  - destruct (Qle_bool x y) eqn:E; [|reflexivity].
    apply Qle_bool_iff in E. lra.
Qed.

Lemma reached_from_nil k cum thr :
  reached_from k cum thr = [] -> never_reached cum thr.
Proof.
  revert k. induction cum as [|c r IH]; intros k H i c' Hi.
  - discriminate.
  - unfold reached_from in H. simpl in H.
    destruct (Qle_bool thr c) eqn:E; [discriminate|].
    destruct i as [|i]; simpl in Hi.
    + inversion Hi; subst. now apply Qle_bool_false.
    + exact (IH (S k) H i c' Hi).
Qed.

Lemma reached_from_cons k cum thr i rest :
  reached_from k cum thr = i :: rest ->
  exists c, (k <= i)%nat /\ cum !! (i - k)%nat = Some c /\ thr <= c /\
    forall (j : nat) (c' : Q),
      (j < i - k)%nat -> cum !! j = Some c' -> c' < thr.
Proof.
  revert k. induction cum as [|c r IH]; intros k H.
  - discriminate.
  - unfold reached_from in H. simpl in H.
    destruct (Qle_bool thr c) eqn:E.
    + simpl in H. inversion H; subst. exists c.
      rewrite Nat.sub_diag. repeat split; [lia | | intros; lia].
      now apply Qle_bool_iff.
    + destruct (IH (S k) H) as (c0 & Hk & Hc0 & Hle & Hbefore).
      exists c0. replace (i - k)%nat with (S (i - S k)) by lia.
      repeat split; [lia | exact Hc0 | exact Hle |].
      intros j c' Hj Hc'. destruct j as [|j]; simpl in Hc'.
      * inversion Hc'; subst. now apply Qle_bool_false.
      * apply (Hbefore j c'); [lia | exact Hc'].
Qed.

(** The loop leaves the state alone, succeeds on a well-formed frame,
    and fills [stage_dates] and the annotations as specified. *)
Lemma stage_loop_spec dates cum n items :
  length dates = length cum ->
  NoDup (map fst items) ->
  forall fig sd s,
    (forall name, name ∈ map fst items -> sd !! name = None) ->
    exists fig' sd',
      stage_loop dates cum n items fig sd s = (Ok (fig', sd'), s) /\
      (forall name, name ∉ map fst items -> sd' !! name = sd !! name) /\
      (forall name thr, (name, thr) ∈ items ->
         stage_date_spec dates cum thr (sd' !! name)) /\
      fig_traces fig' = fig_traces fig /\
      fig_hlines fig' =
        (fig_hlines fig ++
         map (fun item =>
                mkHLine (snd item)
                  match sd' !! fst item with
                  | Some d => AnnReached (fst item) d
                  | None => AnnBeyond (fst item) n
                  end) items)%list.
Proof.
  intros Hlen. induction items as [|[name thr] rest IH];
    intros Hnd fig sd s Hfresh.
  - exists fig, sd. simpl. rewrite app_nil_r. repeat split; try done.
    intros name thr H. inversion H.
  - simpl in Hnd. apply NoDup_cons in Hnd as [Hnotin Hnd].
    simpl. destruct (reached_index cum thr) as [|day_idx more] eqn:Hidx.
    + destruct (IH Hnd (add_hline thr (AnnBeyond name n) fig) sd s)
        as (fig' & sd' & Hrun & Hother & Hitems & Htr & Hhl).
      { intros k Hk. apply Hfresh. simpl. now right. }
      exists fig', sd'. split; [exact Hrun|].
      assert (Hname : sd' !! name = None).
      { rewrite Hother by exact Hnotin. apply Hfresh. simpl. now left. }
      repeat split.
      * intros k Hk. apply Hother. intros Hin. apply Hk. simpl. now right.
      * intros k t Hin. apply elem_of_cons in Hin as [Heq|Hin].
        -- inversion Heq; subst. rewrite Hname. simpl.
           eapply reached_from_nil. rewrite <- reached_index_from. exact Hidx.
        -- now apply Hitems.
      * exact Htr.
      * rewrite Hhl. simpl. rewrite Hname, <- app_assoc. reflexivity.
    + rewrite reached_index_from in Hidx.
      destruct (reached_from_cons _ _ _ _ _ Hidx)
        as (c & _ & Hc & Hle & Hbefore).
      rewrite Nat.sub_0_r in Hc, Hbefore.
      destruct (lookup_lt_is_Some_2 dates day_idx) as [d Hd].
      { rewrite Hlen. eapply lookup_lt_Some; eauto. }
      rewrite Hd.
      destruct (IH Hnd (add_hline thr (AnnReached name d) fig)
                  (<[name := d]> sd) s)
        as (fig' & sd' & Hrun & Hother & Hitems & Htr & Hhl).
      { intros k Hk. rewrite lookup_insert_ne; [|congruence].
        apply Hfresh. simpl. now right. }
      exists fig', sd'. split; [exact Hrun|].
      assert (Hname : sd' !! name = Some d).
      { rewrite Hother by exact Hnotin. apply lookup_insert_eq. }
      repeat split.
      * intros k Hk. rewrite Hother.
        -- apply lookup_insert_ne. intros ->. apply Hk. simpl. now left.
        -- intros Hin. apply Hk. simpl. now right.
      * intros k t Hin. apply elem_of_cons in Hin as [Heq|Hin].
        -- inversion Heq; subst. rewrite Hname. simpl.
           exists day_idx, c. repeat split; assumption.
        -- now apply Hitems.
      * exact Htr.
      * rewrite Hhl. simpl. rewrite Hname, <- app_assoc. reflexivity.
Qed.

End Estimator.

(** ** Heap reasoning *)

Lemma heap_alloc_lookup (h : list DataFrame) df : (h ++ [df]) !! length h = Some df.
Proof. rewrite lookup_app_r by lia. now rewrite Nat.sub_diag. Qed.

Lemma heap_alloc_update (h : list DataFrame) df df' :
  <[length h := df']> (h ++ [df]) = h ++ [df'].
Proof.
  rewrite insert_app_r_alt by lia. now rewrite Nat.sub_diag.
Qed.

Lemma heap_alloc_old (h : list DataFrame) df l df0 :
  h !! l = Some df0 -> (h ++ [df]) !! l = Some df0.
Proof. intros H. now apply lookup_app_l_Some. Qed.

(** Symbolic execution of the heap operations on a fresh object. *)
Ltac heap_steps :=
  repeat (progress
            (rewrite ?heap_alloc_lookup, ?heap_alloc_update;
             cbn [heap calls col_daily_gdd col_cumulative_gdd col_date
                  col_tmin col_tmax set_daily_gdd set_cumulative_gdd])).

(** ** Running [build_planning_chart] *)

Section PlanningChart.

Local Open Scope Q_scope.

Lemma daily_gdd_column_length p df :
  df_wf df -> length (daily_gdd_column p df) = df_len df.
Proof.
  intros [Hmin Hmax]. unfold daily_gdd_column.
  rewrite length_zip_with. lia.
Qed.

Lemma cumulative_gdd_column_length p df :
  df_wf df -> length (cumulative_gdd_column p df) = df_len df.
Proof.
  intros Hwf. unfold cumulative_gdd_column.
  now rewrite cumsum_length, daily_gdd_column_length.
Qed.

Lemma daily_gdd_column_nonneg p df :
  Forall (fun d => 0 <= d) (daily_gdd_column p df).
Proof.
  unfold daily_gdd_column. generalize (col_tmax df).
  induction (col_tmin df) as [|a r IH]; intros [|b r']; simpl;
    try constructor.
  - apply compute_daily_gdd_nonneg.
  - apply IH.
Qed.

Lemma stage_loop_state dates cum n items fig sd s :
  snd (stage_loop dates cum n items fig sd s) = s.
Proof.
  revert fig sd. induction items as [|[name thr] rest IH]; intros fig sd.
  - reflexivity.
  - simpl. destruct (reached_index cum thr) as [|i more]; [apply IH|].
    destruct (dates !! i); [apply IH | reflexivity].
Qed.

(** The state after the call: the caller's heap with one more object,
    the completed private copy. *)
Lemma build_planning_chart_state h cs l df p cid ln pd :
  h !! l = Some df ->
  snd (build_planning_chart l p cid ln pd (mkState h cs)) =
  mkState (h ++ [planned_frame p df]) (cs ++ [Call_build_planning_chart]).
Proof.
  intros Hl. unfold build_planning_chart, df_copy, bind, log, deref, alloc,
    update, get_column, ret. cbn [heap calls].
  rewrite Hl. heap_steps.
  match goal with
  | |- context [stage_loop ?d ?c ?n ?i ?f ?sd ?s] =>
      pose proof (stage_loop_state d c n i f sd s) as Hs;
      destruct (stage_loop d c n i f sd s) as [[[fig sd']|e] s']
  end; simpl in Hs; subst s'; reflexivity.
Qed.

(** A dangling reference raises before anything is allocated. *)
Lemma build_planning_chart_dangling h cs l p cid ln pd :
  h !! l = None ->
  snd (build_planning_chart l p cid ln pd (mkState h cs)) =
  mkState h (cs ++ [Call_build_planning_chart]).
Proof.
  intros Hl. unfold build_planning_chart, df_copy, bind, log, deref.
  cbn [heap calls]. now rewrite Hl.
Qed.

(** On a well-formed frame the call returns, and [stage_dates] and the
    threshold lines are as the estimator specifies. *)
Lemma build_planning_chart_ok h cs l df p cid ln pd :
  h !! l = Some df ->
  df_wf df ->
  NoDup (map fst (stages p)) ->
  exists fig sd,
    build_planning_chart l p cid ln pd (mkState h cs) =
      (Ok (fig, sd),
       mkState (h ++ [planned_frame p df])
               (cs ++ [Call_build_planning_chart])) /\
    (forall name, name ∉ map fst (stages p) -> sd !! name = None) /\
    (forall name thr, (name, thr) ∈ stages p ->
       stage_date_spec (col_date df) (cumulative_gdd_column p df) thr
         (sd !! name)) /\
    fig_hlines fig =
      map (fun item =>
             mkHLine (snd item)
               match sd !! fst item with
               | Some d => AnnReached (fst item) d
               | None => AnnBeyond (fst item) (df_len df)
               end) (stages p).
Proof.
  intros Hl Hwf Hnd.
  pose proof (build_planning_chart_state h cs l df p cid ln pd Hl) as Hst.
  revert Hst.
  unfold build_planning_chart, df_copy, bind, log, deref, alloc,
    update, get_column, ret. cbn [heap calls].
  rewrite Hl. heap_steps.
  match goal with
  | |- context [stage_loop ?d ?c ?n ?i ?f ?sd ?s] =>
      destruct (stage_loop_spec d c n i
                  ltac:(symmetry; apply (cumulative_gdd_column_length p df Hwf))
                  Hnd f sd s ltac:(intros; apply lookup_empty))
        as (fig' & sd' & Hrun & Hother & Hitems & _ & Hhl)
  end.
  rewrite Hrun. intros Hst. simpl in Hst.
  exists (update_layout (TitleProjected cid ln) fig'), sd'.
  split; [now rewrite <- Hst|]. split; [|split].
  - intros name Hname. rewrite Hother by exact Hname. apply lookup_empty.
  - exact Hitems.
  - simpl. rewrite Hhl. simpl. unfold x_days_of.
    now rewrite length_map, length_seq.
Qed.

End PlanningChart.

(** ** Daily contribution, cumulative series, and the caller's frame *)

Section DerivedColumns.

Local Open Scope Q_scope.

Lemma daily_gdd_column_lookup p df i tmin tmax :
  col_tmin df !! i = Some tmin ->
  col_tmax df !! i = Some tmax ->
  daily_gdd_column p df !! i =
    Some (compute_daily_gdd tmin tmax (t_base p) (t_upper p)).
Proof.
  intros Hmin Hmax. unfold daily_gdd_column.
  rewrite lookup_zip_with, Hmin. simpl. now rewrite Hmax.
Qed.

(** The scenario day: 15 to 25 degrees with base 10 and cutoff 30. *)
Lemma compute_daily_gdd_scenario tmin tmax tb tu :
  tmin == 15 -> tmax == 25 -> tb == 10 -> tu == 30 ->
  compute_daily_gdd tmin tmax tb tu == 10.
Proof.
  intros Hmin Hmax Hb Hu. unfold compute_daily_gdd.
  rewrite (Q.min_l tmax tu) by lra.
  rewrite (Q.max_l tmin tb) by lra.
  rewrite Hmin, Hmax, Hb.
  rewrite Q.max_r; [reflexivity | discriminate].
Qed.

Lemma scenario_column p df :
  t_base p == 10 -> t_upper p == 30 ->
  Forall (fun t => t == 15) (col_tmin df) ->
  Forall (fun t => t == 25) (col_tmax df) ->
  Forall (fun g => g == 10) (daily_gdd_column p df).
Proof.
  intros Hb Hu. unfold daily_gdd_column. generalize (col_tmax df).
  induction (col_tmin df) as [|a r IH]; intros [|b r'] Hmin Hmax; simpl;
    try constructor.
  - apply compute_daily_gdd_scenario; try assumption.
    + now inversion Hmin.
    + now inversion Hmax.
  - apply IH; [now inversion Hmin | now inversion Hmax].
Qed.

(** Five days of 10 accumulate to 10, 20, 30, 40, 50. *)
Lemma cumsum_five_tens dl :
  length dl = 5%nat ->
  Forall (fun g => g == 10) dl ->
  Num.Qlist_eq (Num.cumsum dl) [10; 20; 30; 40; 50].
Proof.
  intros Hlen Hall.
  destruct dl as [|g1 [|g2 [|g3 [|g4 [|g5 [|g6 r]]]]]]; try discriminate.
  repeat match goal with
         | H : Forall _ (_ :: _) |- _ => inversion H; clear H; subst
         end.
  unfold Num.Qlist_eq. simpl. repeat constructor; lra.
Qed.

End DerivedColumns.

(** C1: for every row, the daily GDD that [build_planning_chart] writes
    into the [daily_gdd] column equals
    [max(0, (min(tmax, t_upper) + max(tmin, t_base)) / 2 - t_base)];
    with [t_base = 10], [t_upper = 30] and five days of
    [(tmin = 15, tmax = 25)] the cumulative column is
    [10, 20, 30, 40, 50]. *)
Theorem daily_gdd_formula_and_scenario
    (h : list DataFrame) (cs : list call) (l : loc) (df : DataFrame)
    (p : CropParams) (cid : string) (ln : LocationName) (pd : date) :
  h !! l = Some df ->
  df_wf df ->
  exists (df' : DataFrame) (dl cum : list Q),
    heap (snd (build_planning_chart l p cid ln pd (mkState h cs))) = h ++ [df'] /\
    col_daily_gdd df' = Some dl /\
    col_cumulative_gdd df' = Some cum /\
    length dl = df_len df /\
    (forall (i : nat) (tmin tmax : Q),
        col_tmin df !! i = Some tmin ->
        col_tmax df !! i = Some tmax ->
        dl !! i =
          Some (Qmax 0 ((Qmin tmax (t_upper p) + Qmax tmin (t_base p)) / 2
                        - t_base p)%Q)) /\
    ((t_base p == 10)%Q -> (t_upper p == 30)%Q ->
     df_len df = 5%nat ->
     Forall (fun t => t == 15)%Q (col_tmin df) ->
     Forall (fun t => t == 25)%Q (col_tmax df) ->
     Forall (fun g => g == 10)%Q dl /\
     Num.Qlist_eq cum [10; 20; 30; 40; 50]%Q).
Proof.
  intros Hl Hwf.
  exists (planned_frame p df), (daily_gdd_column p df),
    (cumulative_gdd_column p df).
  rewrite (build_planning_chart_state h cs l df p cid ln pd Hl).
  split; [reflexivity|]. split; [reflexivity|]. split; [reflexivity|].
  split; [now apply daily_gdd_column_length|]. split.
  - intros i tmin tmax Hmin Hmax.
    now rewrite (daily_gdd_column_lookup p df i tmin tmax Hmin Hmax).
  - intros Hb Hu Hlen Hmin Hmax.
    pose proof (scenario_column p df Hb Hu Hmin Hmax) as Hten.
    split; [exact Hten|].
    apply cumsum_five_tens; [|exact Hten].
    now rewrite daily_gdd_column_length.
Qed.

Lemma daily_gdd_formula_and_scenario_witness :
  exists (df' : DataFrame) (dl cum : list Q),
    heap (snd (build_planning_chart 0%nat scenario_crop "maize_wet"
                 (LocNamed "La Trinidad") scenario_start
                 (mkState [scenario_frame] []))) = [scenario_frame] ++ [df'] /\
    col_daily_gdd df' = Some dl /\
    col_cumulative_gdd df' = Some cum /\
    Forall (fun g => g == 10)%Q dl /\
    Num.Qlist_eq cum [10; 20; 30; 40; 50]%Q.
Proof.
  destruct (daily_gdd_formula_and_scenario [scenario_frame] [] 0%nat
              scenario_frame scenario_crop "maize_wet" (LocNamed "La Trinidad")
              scenario_start)
    as (df' & dl & cum & Hheap & Hdl & Hcum & _ & _ & Hscen).
  - reflexivity.
  - split; reflexivity.
  - exists df', dl, cum. repeat split; try assumption;
      apply Hscen; try reflexivity;
      simpl; repeat constructor.
Defined.

(** C3: the [cumulative_gdd] column that [build_planning_chart] derives
    is non-decreasing; it starts at the first daily value, every later
    entry is the previous entry plus that day's [daily_gdd], and every
    [daily_gdd] is at least 0. *)
Theorem cumulative_gdd_invariant
    (h : list DataFrame) (cs : list call) (l : loc) (df : DataFrame)
    (p : CropParams) (cid : string) (ln : LocationName) (pd : date) :
  h !! l = Some df ->
  exists (df' : DataFrame) (dl cum : list Q),
    heap (snd (build_planning_chart l p cid ln pd (mkState h cs))) = h ++ [df'] /\
    col_daily_gdd df' = Some dl /\
    col_cumulative_gdd df' = Some cum /\
    length cum = length dl /\
    (forall (i : nat) (d : Q), dl !! i = Some d -> (0 <= d)%Q) /\
    cum !! 0%nat = dl !! 0%nat /\
    (forall (i : nat) (c d : Q),
        cum !! i = Some c -> dl !! S i = Some d ->
        cum !! S i = Some (c + d)%Q) /\
    (forall (i j : nat) (a b : Q),
        (i <= j)%nat -> cum !! i = Some a -> cum !! j = Some b ->
        (a <= b)%Q).
Proof.
  intros Hl.
  exists (planned_frame p df), (daily_gdd_column p df),
    (cumulative_gdd_column p df).
  rewrite (build_planning_chart_state h cs l df p cid ln pd Hl).
  pose proof (daily_gdd_column_nonneg p df) as Hpos.
  unfold cumulative_gdd_column.
  repeat split.
  - apply cumsum_length.
  - intros i d Hd. rewrite Forall_forall in Hpos. apply Hpos.
    eapply list_elem_of_lookup_2; eauto.
  - apply cumsum_head.
  - intros i c d. apply cumsum_step.
  - intros i j a b. now apply cumsum_mono.
Qed.

Lemma cumulative_gdd_invariant_witness :
  exists (df' : DataFrame) (dl cum : list Q),
    heap (snd (build_planning_chart 0%nat scenario_crop "maize_wet"
                 (LocNamed "La Trinidad") scenario_start
                 (mkState [scenario_frame] []))) = [scenario_frame] ++ [df'] /\
    col_daily_gdd df' = Some dl /\
    col_cumulative_gdd df' = Some cum /\
    (forall (i j : nat) (a b : Q),
        (i <= j)%nat -> cum !! i = Some a -> cum !! j = Some b ->
        (a <= b)%Q).
Proof.
  destruct (cumulative_gdd_invariant [scenario_frame] [] 0%nat
              scenario_frame scenario_crop "maize_wet" (LocNamed "La Trinidad")
              scenario_start eq_refl)
    as (df' & dl & cum & Hheap & Hdl & Hcum & _ & _ & _ & _ & Hmono).
  exists df', dl, cum. repeat split; assumption.
Defined.

(** C10: [build_planning_chart] leaves every frame of the caller as it
    was, the argument included: the two derived columns are written to a
    copy, which is a new object. *)
Theorem build_planning_chart_frame
    (h : list DataFrame) (cs : list call) (l : loc) (df : DataFrame)
    (p : CropParams) (cid : string) (ln : LocationName) (pd : date) :
  h !! l = Some df ->
  let s' := snd (build_planning_chart l p cid ln pd (mkState h cs)) in
  heap s' !! l = Some df /\
  (forall (l' : loc) (df0 : DataFrame),
      h !! l' = Some df0 -> heap s' !! l' = Some df0) /\
  exists copy : DataFrame,
    heap s' = h ++ [copy] /\
    col_date copy = col_date df /\
    col_tmin copy = col_tmin df /\
    col_tmax copy = col_tmax df /\
    is_Some (col_daily_gdd copy) /\
    is_Some (col_cumulative_gdd copy).
Proof.
  intros Hl s'. subst s'.
  rewrite (build_planning_chart_state h cs l df p cid ln pd Hl).
  cbn [heap]. split; [now apply heap_alloc_old|]. split.
  - intros l' df0 H0. now apply heap_alloc_old.
  - exists (planned_frame p df). repeat split; eexists; reflexivity.
Qed.

Lemma build_planning_chart_frame_witness :
  heap (snd (build_planning_chart 0%nat scenario_crop "maize_wet"
               (LocNamed "La Trinidad") scenario_start
               (mkState [scenario_frame] []))) !! 0%nat = Some scenario_frame.
Proof.
  exact (proj1 (build_planning_chart_frame [scenario_frame] [] 0%nat
                  scenario_frame scenario_crop "maize_wet"
                  (LocNamed "La Trinidad") scenario_start eq_refl)).
Defined.

(** A call on a dangling reference raises and allocates nothing. *)
Lemma dangling_reference_allocates_nothing h cs l p cid ln pd :
  h !! l = None ->
  heap (snd (build_planning_chart l p cid ln pd (mkState h cs))) = h.
Proof.
  intros Hl. now rewrite build_planning_chart_dangling.
Qed.

(** ** The climate projection fetch *)

Section ClimateFetch.

Local Open Scope Q_scope.

Variable w : World.

(** Whatever happens, the fetch logs exactly its API call, and
    allocates at most one frame. *)
Lemma fetch_climate_temp_calls la lo sd ed s :
  calls (snd (fetch_climate_temp w la lo sd ed s)) =
  calls s ++ [Call_climate_api la lo sd ed].
Proof.
  unfold fetch_climate_temp, bind, log, alloc, raise. cbn [heap calls].
  destruct (climate_api w la lo sd ed) as [data|e]; [|reflexivity].
  destruct (default [] _) as [|d ds]; [reflexivity|].
  destruct (_ && _); reflexivity.
Qed.

Lemma fetch_climate_temp_ok la lo sd ed s data :
  climate_api w la lo sd ed = Ok data ->
  response_wf data ->
  fetch_climate_temp w la lo sd ed s =
  (Ok (length (heap s)),
   mkState (heap s ++ [response_frame data])
           (calls s ++ [Call_climate_api la lo sd ed])).
Proof.
  intros Hapi (Hne & Hmin & Hmax).
  unfold fetch_climate_temp, bind, log, alloc, raise. cbn [heap calls].
  rewrite Hapi. fold (response_dates data) (response_tmins data)
    (response_tmaxs data).
  unfold response_frame.
  destruct (response_dates data) as [|d ds] eqn:Hd; [congruence|].
  rewrite !length_map, Hmin, Hmax, Nat.eqb_refl. reflexivity.
Qed.

Lemma fetch_climate_temp_no_dates la lo sd ed s data :
  climate_api w la lo sd ed = Ok data ->
  response_dates data = [] ->
  fetch_climate_temp w la lo sd ed s =
  (Ok (length (heap s)),
   mkState (heap s ++ [empty_frame])
           (calls s ++ [Call_climate_api la lo sd ed])).
Proof.
  intros Hapi Hd.
  unfold fetch_climate_temp, bind, log, alloc, raise. cbn [heap calls].
  rewrite Hapi. fold (response_dates data). now rewrite Hd.
Qed.

Lemma response_frame_wf data : response_wf data -> df_wf (response_frame data).
Proof.
  intros (_ & Hmin & Hmax). unfold df_wf, df_len, response_frame. simpl.
  now rewrite !length_map.
Qed.

End ClimateFetch.

(** C9: a [null] minimum or maximum temperature in a climate response
    becomes [0.0] in the frame [fetch_climate_temp] returns; the row is
    kept, and the GDD computation of [build_planning_chart] uses 0
    degrees for it. *)
Theorem fetch_climate_temp_null_is_zero
    (w : World) (la lo : Q) (sd ed : date) (s : State) (data : ClimateData) :
  climate_api w la lo sd ed = Ok data ->
  response_wf data ->
  exists (df : DataFrame),
    fetch_climate_temp w la lo sd ed s =
      (Ok (length (heap s)),
       mkState (heap s ++ [df]) (calls s ++ [Call_climate_api la lo sd ed])) /\
    col_date df = response_dates data /\
    length (col_tmin df) = length (response_dates data) /\
    length (col_tmax df) = length (response_dates data) /\
    (forall i : nat,
        response_tmins data !! i = Some None -> col_tmin df !! i = Some 0%Q) /\
    (forall i : nat,
        response_tmaxs data !! i = Some None -> col_tmax df !! i = Some 0%Q) /\
    (forall (i : nat) (t : Q),
        response_tmins data !! i = Some (Some t) -> col_tmin df !! i = Some t) /\
    (forall (i : nat) (t : Q),
        response_tmaxs data !! i = Some (Some t) -> col_tmax df !! i = Some t) /\
    (forall (p : CropParams) (i : nat) (tmax : Q),
        response_tmins data !! i = Some None ->
        col_tmax df !! i = Some tmax ->
        daily_gdd_column p df !! i =
          Some (compute_daily_gdd 0 tmax (t_base p) (t_upper p))).
Proof.
  intros Hapi Hwf. exists (response_frame data).
  split; [now apply fetch_climate_temp_ok|].
  pose proof Hwf as (_ & Hmin & Hmax).
  assert (Hnull : forall (l : list (option Q)) i,
             l !! i = Some None -> map float_or_zero l !! i = Some 0%Q).
  { intros l i H. change (map float_or_zero l) with (float_or_zero <$> l).
    now rewrite list_lookup_fmap, H. }
  assert (Hval : forall (l : list (option Q)) i t,
             l !! i = Some (Some t) -> map float_or_zero l !! i = Some t).
  { intros l i t H. change (map float_or_zero l) with (float_or_zero <$> l).
    now rewrite list_lookup_fmap, H. }
  unfold response_frame; cbn [col_date col_tmin col_tmax].
  rewrite !length_map.
  repeat split; auto.
  intros p i tmax Hi Htmax.
  apply daily_gdd_column_lookup; [|exact Htmax].
  cbn [col_tmin]. now apply Hnull.
Qed.

(** ** The callback: validation and the mode guards *)

Section Callback.

Variable w : World.

Lemma compute_gdd_valid n lat lon cn v pds mode ld la lo pd p :
  valid_request w lat lon cn v pds la lo pd p ->
  compute_gdd w n lat lon cn v pds mode ld =
  let cid := request_crop_id cn v in
  if String.eqb mode "check"
  then check_progress w (build_stage_table p cid) la lo cid p pd
         (request_location ld la lo)
  else plan_harvest w (build_stage_table p cid) la lo cid p pd
         (request_location ld la lo).
Proof.
  intros (-> & -> & Hcn & Hv & Hpds & Hparse & Hcrop).
  unfold compute_gdd. rewrite Hcn, Hv, Hpds. cbn [orb].
  rewrite Hparse. fold (request_crop_id cn v). rewrite Hcrop.
  reflexivity.
Qed.

(** An invocation that changes the state at all (fetches, allocates,
    computes) has a planting date on the side of today that its mode
    asks for. *)
Lemma compute_gdd_processing n lat lon cn v pds mode ld s :
  snd (compute_gdd w n lat lon cn v pds mode ld s) <> s ->
  exists pd : date,
    fromisoformat w (default "" pds) = Some pd /\
    if String.eqb mode "check" then (pd <= today w)%Z else (today w < pd)%Z.
Proof.
  unfold compute_gdd.
  destruct lat as [la|]; [|intros H; now elim H].
  destruct lon as [lo|]; [|intros H; now elim H].
  destruct (falsy cn || falsy v); [intros H; now elim H|].
  destruct (falsy pds); [intros H; now elim H|].
  destruct (fromisoformat w (default "" pds)) as [pd|];
    [|intros H; now elim H].
  destruct (crops w !! _) as [p|]; [|intros H; now elim H].
  intros H. exists pd. split; [reflexivity|].
  destruct (String.eqb mode "check").
  - unfold check_progress in H.
    destruct (pd >? today w)%Z eqn:E; [now elim H|]. lia.
  - unfold plan_harvest in H.
    destruct (pd <=? today w)%Z eqn:E; [now elim H|]. lia.
Qed.

(** An invocation whose planting date is on the wrong side of today for
    its mode leaves the state as it was: nothing is fetched, allocated
    or computed. *)
Lemma compute_gdd_rejecting n lat lon cn v pds mode ld s pd :
  fromisoformat w (default "" pds) = Some pd ->
  (if String.eqb mode "check" then (pd > today w)%Z else (pd <= today w)%Z) ->
  snd (compute_gdd w n lat lon cn v pds mode ld s) = s.
Proof.
  intros Hparse Hside. unfold compute_gdd.
  destruct lat as [la|]; [|reflexivity].
  destruct lon as [lo|]; [|reflexivity].
  destruct (falsy cn || falsy v); [reflexivity|].
  destruct (falsy pds); [reflexivity|].
  rewrite Hparse.
  destruct (crops w !! _) as [p|]; [|reflexivity].
  destruct (String.eqb mode "check").
  - unfold check_progress.
    replace (pd >? today w)%Z with true by lia. reflexivity.
  - unfold plan_harvest.
    replace (pd <=? today w)%Z with true by lia. reflexivity.
Qed.

End Callback.

Lemma fetch_climate_temp_null_is_zero_witness :
  exists (df : DataFrame),
    fetch_climate_temp scenario_world 16 120 scenario_start
      (scenario_start + 90)%Z state0 =
      (Ok 0%nat,
       mkState [df] [Call_climate_api 16 120 scenario_start (scenario_start + 90)%Z]) /\
    col_tmin df !! 1%nat = Some 0%Q /\
    length (col_tmin df) = 8%nat.
Proof.
  destruct (fetch_climate_temp_null_is_zero scenario_world 16 120
              scenario_start (scenario_start + 90)%Z state0 scenario_response)
    as (df & Hrun & _ & Hlen & _ & Hnull & _).
  - reflexivity.
  - split; [discriminate | split; reflexivity].
  - exists df. split; [exact Hrun|]. split; [|exact Hlen].
    apply Hnull. reflexivity.
Defined.

(** C8: in check mode a planting date after today, and in plan mode a
    planting date on or before today, is rejected: for every invocation
    the state is left untouched (no weather is fetched, no GDD is
    computed), and for a request that has passed the input checks the
    result is the message "Check mode requires a past planting date.",
    respectively "Plan mode requires a future planting date.".  So
    anything is fetched or computed only for a planting date on or before
    today in check mode and strictly after today in plan mode. *)
Theorem mode_guards
    (w : World) (n : Z) (lat lon : option Q)
    (cn v pds : option string) (mode : string) (ld : option string)
    (s : State) :
  (forall pd : date,
      fromisoformat w (default "" pds) = Some pd ->
      (mode = "check" -> (pd > today w)%Z ->
       snd (compute_gdd w n lat lon cn v pds mode ld s) = s) /\
      (mode <> "check" -> (pd <= today w)%Z ->
       snd (compute_gdd w n lat lon cn v pds mode ld s) = s)) /\
  (forall (la lo : Q) (pd : date) (p : CropParams),
      valid_request w lat lon cn v pds la lo pd p ->
      let table := build_stage_table p (request_crop_id cn v) in
      (mode = "check" -> (pd > today w)%Z ->
       compute_gdd w n lat lon cn v pds mode ld s =
       (Ok (rejected (Some table)
              (Message "Check mode requires a past planting date.")), s)) /\
      (mode <> "check" -> (pd <= today w)%Z ->
       compute_gdd w n lat lon cn v pds mode ld s =
       (Ok (rejected (Some table)
              (Message "Plan mode requires a future planting date.")), s))) /\
  (snd (compute_gdd w n lat lon cn v pds mode ld s) <> s ->
   exists pd : date,
     fromisoformat w (default "" pds) = Some pd /\
     (mode = "check" -> (pd <= today w)%Z) /\
     (mode <> "check" -> (today w < pd)%Z)).
Proof.
  split; [|split].
  - intros pd Hparse. split.
    + intros -> Hgt.
      apply (compute_gdd_rejecting w n lat lon cn v pds "check" ld s pd Hparse).
      now rewrite String.eqb_refl.
    + intros Hmode Hle. apply String.eqb_neq in Hmode.
      apply (compute_gdd_rejecting w n lat lon cn v pds mode ld s pd Hparse).
      now rewrite Hmode.
  - intros la lo pd p Hvalid table. subst table.
    rewrite (compute_gdd_valid w n lat lon cn v pds mode ld la lo pd p Hvalid).
    cbv zeta. split.
    + intros -> Hgt. rewrite String.eqb_refl. unfold check_progress.
      replace (pd >? today w)%Z with true by lia. reflexivity.
    + intros Hmode Hle. apply String.eqb_neq in Hmode. rewrite Hmode.
      unfold plan_harvest.
      replace (pd <=? today w)%Z with true by lia. reflexivity.
  - intros Hs.
    destruct (compute_gdd_processing w n lat lon cn v pds mode ld s Hs)
      as (pd & Hparse & Hside).
    exists pd. split; [exact Hparse|]. split.
    + intros ->. now rewrite String.eqb_refl in Hside.
    + intros Hmode. apply String.eqb_neq in Hmode. now rewrite Hmode in Hside.
Qed.

Lemma mode_guards_witness :
  compute_gdd scenario_world 1 (Some 16%Q) (Some 120%Q) (Some "maize") (Some "wet")
    (Some "2030-06-01") "check" None state0 =
  (Ok (rejected (Some (build_stage_table scenario_crop "maize_wet"))
         (Message "Check mode requires a past planting date.")), state0) /\
  compute_gdd scenario_world 1 (Some 16%Q) (Some 120%Q) (Some "maize") (Some "wet")
    (Some "2030-04-01") "plan" None state0 =
  (Ok (rejected (Some (build_stage_table scenario_crop "maize_wet"))
         (Message "Plan mode requires a future planting date.")), state0).
Proof.
  split.
  - apply (proj1 (proj2 (mode_guards scenario_world 1 (Some 16%Q) (Some 120%Q)
                    (Some "maize") (Some "wet") (Some "2030-06-01") "check"
                    None state0)) 16%Q 120%Q scenario_start scenario_crop).
    + repeat split; reflexivity.
    + reflexivity.
    + reflexivity.
  - apply (proj1 (proj2 (mode_guards scenario_world 1 (Some 16%Q) (Some 120%Q)
                    (Some "maize") (Some "wet") (Some "2030-04-01") "plan"
                    None state0)) 16%Q 120%Q scenario_past scenario_crop).
    + repeat split; reflexivity.
    + discriminate.
    + discriminate.
Defined.

(** ** Plan mode *)

Section PlanMode.

Local Open Scope Q_scope.

Variable w : World.

Lemma plan_end_date_ok pd days e0 s :
  Date.add_days pd days = Some e0 ->
  plan_end_date pd days s = (Ok (Z.min e0 DATE_CEILING), s).
Proof.
  intros H. unfold plan_end_date. rewrite H. unfold ret.
  destruct (e0 >? DATE_CEILING)%Z eqn:E.
  - now rewrite Z.min_r by lia.
  - now rewrite Z.min_l by lia.
Qed.

(** Plan mode up to and including the fetch. *)
Lemma plan_harvest_fetch tbl la lo cid p pd ln s e :
  (today w < pd)%Z ->
  plan_horizon p pd e ->
  plan_harvest w tbl la lo cid p pd ln s =
  match fetch_climate_temp w la lo pd e s with
  | (Raise ex, s1) =>
      (Ok (rejected (Some tbl) (FetchFailed "Could not fetch climate data: " ex)),
       s1)
  | (Ok weather, s1) =>
      (df <- deref weather ;;
       if df_empty df
       then ret (rejected (Some tbl)
                   (Message "No climate data available for this location and date range."))
       else
         r <- build_planning_chart weather p cid ln pd ;;
         let '(chart_fig, stage_dates) := r in
         temp_fig <- build_temperature_chart weather ln pd ;;
         ret (mkOutput (Some tbl)
                (PlanResults cid pd (stage_lines stage_dates pd))
                chart_fig temp_fig DownloadBtnStyle
                (Some (ReportPlan ln la lo cid (t_base p) (t_upper p) pd
                         stage_dates))
                (Some chart_fig)))%py s1
  end.
Proof.
  intros Hpd (hg & e0 & Hh & Hadd & ->).
  unfold plan_harvest.
  replace (pd <=? today w)%Z with false by lia.
  rewrite Hh. unfold bind at 1.
  rewrite (plan_end_date_ok pd _ e0 s Hadd).
  unfold bind at 1. unfold try_except, bind at 1, ret at 1.
  destruct (fetch_climate_temp w la lo pd (Z.min e0 DATE_CEILING) s)
    as [[weather|ex] s1]; reflexivity.
Qed.

(** A response without rows: the "no data" message, right after the
    fetch. *)
Lemma plan_harvest_empty tbl la lo cid p pd ln s e data :
  (today w < pd)%Z ->
  plan_horizon p pd e ->
  climate_api w la lo pd e = Ok data ->
  response_dates data = [] ->
  plan_harvest w tbl la lo cid p pd ln s =
  (Ok (rejected (Some tbl)
         (Message "No climate data available for this location and date range.")),
   mkState (heap s ++ [empty_frame])
           (calls s ++ [Call_climate_api la lo pd e])).
Proof.
  intros Hpd Hhor Hapi Hdates.
  rewrite (plan_harvest_fetch tbl la lo cid p pd ln s e Hpd Hhor).
  rewrite (fetch_climate_temp_no_dates w la lo pd e s data Hapi Hdates).
  unfold bind, deref. heap_steps. reflexivity.
Qed.

(** A response with rows: the projection is computed on the fetched
    frame and rendered by [stage_lines]. *)
Lemma plan_harvest_ok tbl la lo cid p pd ln s e data :
  (today w < pd)%Z ->
  plan_horizon p pd e ->
  climate_api w la lo pd e = Ok data ->
  response_wf data ->
  NoDup (map fst (stages p)) ->
  exists (fig temp : Figure) (sd : gmap string date),
    plan_harvest w tbl la lo cid p pd ln s =
    (Ok (mkOutput (Some tbl) (PlanResults cid pd (stage_lines sd pd))
           fig temp DownloadBtnStyle
           (Some (ReportPlan ln la lo cid (t_base p) (t_upper p) pd sd))
           (Some fig)),
     mkState (heap s ++ [response_frame data; planned_frame p (response_frame data)])
             (calls s ++ [Call_climate_api la lo pd e; Call_build_planning_chart])) /\
    (forall name, name ∉ map fst (stages p) -> sd !! name = None) /\
    (forall name thr, (name, thr) ∈ stages p ->
       stage_date_spec (response_dates data)
         (cumulative_gdd_column p (response_frame data)) thr (sd !! name)) /\
    fig_hlines fig =
      map (fun item =>
             mkHLine (snd item)
               match sd !! fst item with
               | Some d => AnnReached (fst item) d
               | None => AnnBeyond (fst item) (length (response_dates data))
               end) (stages p).
Proof.
  intros Hpd Hhor Hapi Hwf Hnd.
  rewrite (plan_harvest_fetch tbl la lo cid p pd ln s e Hpd Hhor).
  rewrite (fetch_climate_temp_ok w la lo pd e s data Hapi Hwf).
  unfold bind at 1, deref at 1. heap_steps.
  assert (Hne : df_empty (response_frame data) = false).
  { destruct Hwf as (Hne & _). unfold df_empty, response_frame. simpl.
    now destruct (response_dates data). }
  rewrite Hne.
  destruct (build_planning_chart_ok (heap s ++ [response_frame data])
              (calls s ++ [Call_climate_api la lo pd e]) (length (heap s))
              (response_frame data) p cid ln pd
              (heap_alloc_lookup _ _) (response_frame_wf data Hwf) Hnd)
    as (fig & sd & Hrun & Hother & Hitems & Hhl).
  unfold bind at 1. rewrite Hrun.
  unfold build_temperature_chart, bind, deref, ret. cbn [heap calls].
  rewrite (heap_alloc_old _ _ _ _ (heap_alloc_lookup (heap s) (response_frame data))).
  eexists _, _, sd. split; [|split; [exact Hother | split; [exact Hitems | exact Hhl]]].
  rewrite <- !app_assoc. reflexivity.
Qed.

End PlanMode.

Section StageLines.

(** On an ascending series the first row that reaches the threshold
    carries the earliest such date. *)
Lemma first_reached_earliest dates cum thr d :
  first_reached dates cum thr d ->
  dates_ascending dates ->
  forall (j : nat) (dj : date) (cj : Q),
    dates !! j = Some dj -> cum !! j = Some cj -> (thr <= cj)%Q ->
    (d <= dj)%Z.
Proof.
  intros (i & c & Hc & Hle & Hd & Hbefore) Hasc j dj cj Hdj Hcj Hthr.
  destruct (Nat.lt_trichotomy j i) as [Hlt|[Heq|Hgt]].
  - specialize (Hbefore j cj Hlt Hcj). lra.
  - subst j. rewrite Hd in Hdj. inversion Hdj. lia.
  - specialize (Hasc i j d dj Hgt Hd Hdj). lia.
Qed.

Lemma stage_lines_reached sd pd name d :
  name ∈ STAGE_ORDER ->
  sd !! name = Some d ->
  LineDate name d (d - pd)%Z ∈ stage_lines sd pd.
Proof.
  intros Hin Hsd. unfold stage_lines.
  change (map ?f STAGE_ORDER) with (f <$> STAGE_ORDER).
  apply list_elem_of_fmap. exists name. now rewrite Hsd.
Qed.

Lemma stage_lines_beyond sd pd name :
  name ∈ STAGE_ORDER ->
  sd !! name = None ->
  LineBeyond name ∈ stage_lines sd pd /\
  forall (d : date) (k : Z), LineDate name d k ∉ stage_lines sd pd.
Proof.
  intros Hin Hsd. unfold stage_lines.
  change (map ?f STAGE_ORDER) with (f <$> STAGE_ORDER). split.
  - apply list_elem_of_fmap. exists name. now rewrite Hsd.
  - intros d k H. apply list_elem_of_fmap in H as (name' & Heq & _).
    destruct (sd !! name') as [d'|] eqn:E; [|discriminate].
    inversion Heq; subst. congruence.
Qed.

End StageLines.

(** Plan mode runs the estimator on the working copy: the callback
    succeeds, the copy carries the response's dates and a
    [cumulative_gdd] column of the same length, and the result lines
    and the threshold annotations are those of [stage_dates] dated
    against that stored column. *)
Lemma plan_mode_runs_estimator
    (w : World) (n : Z) (lat lon : option Q) (cn v pds : option string)
    (mode : string) (ld : option string) (s : State)
    (la lo : Q) (pd e : date) (p : CropParams) (data : ClimateData) :
  valid_request w lat lon cn v pds la lo pd p ->
  mode <> "check" ->
  (today w < pd)%Z ->
  plan_horizon p pd e ->
  climate_api w la lo pd e = Ok data ->
  response_wf data ->
  NoDup (map fst (stages p)) ->
  exists (out : Output) (s' : State) (sd : gmap string date)
         (copy : DataFrame) (dates : list date) (cum : list Q),
    compute_gdd w n lat lon cn v pds mode ld s = (Ok out, s') /\
    heap s' = heap s ++ [response_frame data; copy] /\
    col_date copy = dates /\
    dates = response_dates data /\
    col_cumulative_gdd copy = Some cum /\
    length cum = length dates /\
    out_results out =
      PlanResults (request_crop_id cn v) pd (stage_lines sd pd) /\
    forall (name : string) (thr : Q),
      (name, thr) ∈ stages p ->
      match sd !! name with
      | Some d =>
          first_reached dates cum thr d /\
          (dates_ascending dates ->
           forall (j : nat) (dj : date) (cj : Q),
             dates !! j = Some dj -> cum !! j = Some cj -> (thr <= cj)%Q ->
             (d <= dj)%Z) /\
          mkHLine thr (AnnReached name d) ∈ fig_hlines (out_chart out) /\
          (name ∈ STAGE_ORDER ->
           LineDate name d (d - pd)%Z ∈ stage_lines sd pd)
      | None =>
          never_reached cum thr /\
          mkHLine thr (AnnBeyond name (length dates)) ∈ fig_hlines (out_chart out) /\
          (name ∈ STAGE_ORDER ->
           LineBeyond name ∈ stage_lines sd pd /\
           forall (d : date) (k : Z), LineDate name d k ∉ stage_lines sd pd)
      end.
Proof.
  intros Hvalid Hmode Hpd Hhor Hapi Hwf Hnd.
  rewrite (compute_gdd_valid w n lat lon cn v pds mode ld la lo pd p Hvalid).
  cbv zeta. apply String.eqb_neq in Hmode. rewrite Hmode.
  destruct (plan_harvest_ok w (build_stage_table p (request_crop_id cn v))
              la lo (request_crop_id cn v) p pd (request_location ld la lo)
              s e data Hpd Hhor Hapi Hwf Hnd)
    as (fig & temp & sd & Hrun & Hother & Hitems & Hhl).
  rewrite Hrun.
  eexists _, _, sd, (planned_frame p (response_frame data)),
    (response_dates data), (cumulative_gdd_column p (response_frame data)).
  split; [reflexivity|]. split; [reflexivity|]. split; [reflexivity|].
  split; [reflexivity|]. split; [reflexivity|].
  split; [exact (cumulative_gdd_column_length p _ (response_frame_wf data Hwf))|].
  split; [reflexivity|].
  intros name thr Hin. cbn [out_chart]. specialize (Hitems name thr Hin).
  assert (Hline : mkHLine thr
                    match sd !! name with
                    | Some d => AnnReached name d
                    | None => AnnBeyond name (length (response_dates data))
                    end ∈ fig_hlines fig).
  { rewrite Hhl.
    change (map ?f (stages p)) with (f <$> stages p).
    apply list_elem_of_fmap. exists (name, thr). split; [reflexivity|exact Hin]. }
  destruct (sd !! name) as [d|] eqn:Hsd; simpl in Hitems.
  - split; [exact Hitems|]. split.
    + intros Hasc. now apply (first_reached_earliest _ _ thr d).
    + split; [exact Hline|]. intros Hname. now apply stage_lines_reached.
  - split; [exact Hitems|]. split; [exact Hline|].
    intros Hname. now apply stage_lines_beyond.
Qed.



(** ** Check mode, and the empty series *)

Section CheckMode.

Variable w : World.

(** A weather provider that returns no rows: the "no data" message,
    right after the fetch. *)
Lemma check_progress_empty tbl la lo cid p pd ln s df :
  (pd <= today w)%Z ->
  daily_temp_api w la lo pd (today w) = Ok df ->
  df_empty df = true ->
  check_progress w tbl la lo cid p pd ln s =
  (Ok (rejected (Some tbl)
         (Message "No weather data available for this location and date range.")),
   mkState (heap s ++ [df])
           (calls s ++ [Call_fetch_daily_temp la lo pd (today w)])).
Proof.
  intros Hpd Hapi Hempty. unfold check_progress.
  replace (pd >? today w)%Z with false by lia.
  unfold try_except, fetch_daily_temp, bind, log, alloc, deref, ret.
  cbn [heap calls]. rewrite Hapi. heap_steps. now rewrite Hempty.
Qed.

End CheckMode.

(** C5: a request whose weather series comes back with zero rows gets
    the "no data" message of its mode as the result, with empty figures,
    the download hidden and no report; after the fetch nothing else is
    called (no GDD series, no summary, no planning chart), and the only
    new object is the fetched, still underived, frame. *)
Theorem empty_series_no_data
    (w : World) (n : Z) (lat lon : option Q) (cn v pds : option string)
    (mode : string) (ld : option string) (s : State)
    (la lo : Q) (pd : date) (p : CropParams) :
  valid_request w lat lon cn v pds la lo pd p ->
  let table := build_stage_table p (request_crop_id cn v) in
  (forall df : DataFrame,
      mode = "check" -> (pd <= today w)%Z ->
      daily_temp_api w la lo pd (today w) = Ok df ->
      df_empty df = true ->
      compute_gdd w n lat lon cn v pds mode ld s =
      (Ok (rejected (Some table)
             (Message "No weather data available for this location and date range.")),
       mkState (heap s ++ [df])
               (calls s ++ [Call_fetch_daily_temp la lo pd (today w)]))) /\
  (forall (e : date) (data : ClimateData),
      mode <> "check" -> (today w < pd)%Z ->
      plan_horizon p pd e ->
      climate_api w la lo pd e = Ok data ->
      response_dates data = [] ->
      compute_gdd w n lat lon cn v pds mode ld s =
      (Ok (rejected (Some table)
             (Message "No climate data available for this location and date range.")),
       mkState (heap s ++ [empty_frame])
               (calls s ++ [Call_climate_api la lo pd e]))).
Proof.
  intros Hvalid table. subst table.
  rewrite (compute_gdd_valid w n lat lon cn v pds mode ld la lo pd p Hvalid).
  cbv zeta. split.
  - intros df -> Hpd Hapi Hempty. rewrite String.eqb_refl.
    now apply check_progress_empty.
  - intros e data Hmode Hpd Hhor Hapi Hdates.
    apply String.eqb_neq in Hmode. rewrite Hmode.
    now apply (plan_harvest_empty w _ la lo _ p pd _ s e data).
Qed.

Lemma empty_series_no_data_witness :
  compute_gdd empty_world 1 (Some 16%Q) (Some 120%Q) (Some "maize") (Some "wet")
    (Some "2030-04-01") "check" None state0 =
  (Ok (rejected (Some (build_stage_table scenario_crop "maize_wet"))
         (Message "No weather data available for this location and date range.")),
   mkState [empty_frame]
     [Call_fetch_daily_temp 16 120 scenario_past scenario_today]) /\
  compute_gdd empty_world 1 (Some 16%Q) (Some 120%Q) (Some "maize") (Some "wet")
    (Some "2030-06-01") "plan" None state0 =
  (Ok (rejected (Some (build_stage_table scenario_crop "maize_wet"))
         (Message "No climate data available for this location and date range.")),
   mkState [empty_frame]
     [Call_climate_api 16 120 scenario_start (scenario_start + 90)%Z]).
Proof.
  split.
  - apply (proj1 (empty_series_no_data empty_world 1 (Some 16%Q) (Some 120%Q)
                    (Some "maize") (Some "wet") (Some "2030-04-01") "check"
                    None state0 16%Q 120%Q scenario_past scenario_crop
                    ltac:(repeat split; reflexivity)) empty_frame).
    + reflexivity.
    + discriminate.
    + reflexivity.
    + reflexivity.
  - apply (proj2 (empty_series_no_data empty_world 1 (Some 16%Q) (Some 120%Q)
                    (Some "maize") (Some "wet") (Some "2030-06-01") "plan"
                    None state0 16%Q 120%Q scenario_start scenario_crop
                    ltac:(repeat split; reflexivity))
             (scenario_start + 90)%Z empty_response).
    + discriminate.
    + reflexivity.
    + exists 600%Q, (scenario_start + 90)%Z. repeat split; reflexivity.
    + reflexivity.
    + reflexivity.
Defined.

(** ** The projection horizon *)

Section Horizon.

Local Open Scope Q_scope.

Lemma round_half_even_nonneg q : 0 <= q -> (0 <= Num.round_half_even q)%Z.
Proof.
  intros Hq. unfold Num.round_half_even.
  assert (Hn : (0 <= Qnum q)%Z) by (unfold Qle in Hq; simpl in Hq; lia).
  assert (Hf : (0 <= Qnum q / Zpos (Qden q))%Z) by (apply Z.div_pos; lia).
  destruct (2 * (Qnum q mod Zpos (Qden q)) ?= Zpos (Qden q))%Z; [|lia|lia].
  destruct (Z.even _); lia.
Qed.

(** Rounding keeps the sign of a non-negative number. *)
Lemma round64_nonneg q : 0 <= q -> 0 <= Num.round64 q.
Proof.
  intros Hq. unfold Num.round64.
  destruct (Qnum q) as [|n|n] eqn:E.
  - apply Qle_refl.
  - unfold Num.round64_pos. rewrite Qred_correct.
    set (s := Z.max (Num.binade q - 52) (-1074)).
    assert (Hpow : 0 < 2 ^ s) by (apply Qpower_0_lt; reflexivity).
    apply Qmult_le_0_compat; [|lra].
    change 0 with (inject_Z 0). rewrite <- Zle_Qle.
    apply round_half_even_nonneg. apply Qle_shift_div_l; lra.
  - unfold Qle in Hq. simpl in Hq. lia.
Qed.

Lemma plan_estimated_days_positive_span p hg :
  0 < Num.fl_sub (t_upper p) (t_base p) ->
  plan_estimated_days p hg =
  Z.min (Num.py_int (Num.fl_div hg (Num.fl_sub (t_upper p) (t_base p))) + 60)
    365.
Proof.
  intros H. unfold plan_estimated_days, Num.Qgt_bool.
  replace (Qle_bool (Num.fl_sub (t_upper p) (t_base p)) 0) with false;
    [reflexivity|].
  symmetry. now apply Qle_bool_false.
Qed.

Lemma plan_estimated_days_no_span p hg :
  Num.fl_sub (t_upper p) (t_base p) <= 0 ->
  plan_estimated_days p hg = 365%Z.
Proof.
  intros H. unfold plan_estimated_days, Num.Qgt_bool.
  replace (Qle_bool (Num.fl_sub (t_upper p) (t_base p)) 0) with true;
    [reflexivity|].
  symmetry. now apply Qle_bool_iff.
Qed.

Lemma plan_estimated_days_le p hg : (plan_estimated_days p hg <= 365)%Z.
Proof. unfold plan_estimated_days. apply Z.le_min_r. Qed.

Variable w : World.

(** The first thing plan mode does past its guard is the climate
    request for [planting_date .. end_date]. *)
Lemma plan_harvest_calls tbl la lo cid p pd ln s e :
  (today w < pd)%Z ->
  plan_horizon p pd e ->
  exists rest : list call,
    calls (snd (plan_harvest w tbl la lo cid p pd ln s)) =
    calls s ++ Call_climate_api la lo pd e :: rest.
Proof.
  intros Hpd Hhor.
  rewrite (plan_harvest_fetch w tbl la lo cid p pd ln s e Hpd Hhor).
  pose proof (fetch_climate_temp_calls w la lo pd e s) as Hcalls.
  destruct (fetch_climate_temp w la lo pd e s) as [[weather|ex] s1];
    cbn [snd] in Hcalls.
  2:{ exists []. exact Hcalls. }
  unfold bind at 1, deref at 1.
  destruct (heap s1 !! weather) as [df|] eqn:Hw.
  2:{ exists []. exact Hcalls. }
  destruct (df_empty df).
  { exists []. exact Hcalls. }
  destruct s1 as [h1 cs1]. cbn [heap calls] in *.
  pose proof (build_planning_chart_state h1 cs1 weather df p cid ln pd Hw)
    as Hst.
  exists [Call_build_planning_chart].
  unfold bind at 1.
  destruct (build_planning_chart weather p cid ln pd (mkState h1 cs1))
    as [[[fig sd]|ex] s2]; cbn [snd] in Hst; subst s2.
  - unfold build_temperature_chart, bind, deref, ret. cbn [heap calls].
    rewrite (heap_alloc_old _ _ _ _ Hw). cbn [snd calls].
    rewrite Hcalls, <- app_assoc. reflexivity.
  - cbn [snd calls]. rewrite Hcalls, <- app_assoc. reflexivity.
Qed.

End Horizon.

(** C6 (as stated) fails: no fixed buffer makes the number of days equal
    to the quotient plus the buffer.  For the scenario crop the callback
    asks for [int(600 / 20) + 60 = 90] days, for the slow crop for 365
    days although [int(2000 / 5) = 400]. *)
Lemma horizon_is_not_quotient_plus_buffer :
  plan_estimated_days scenario_crop 600 = 90%Z /\
  Num.py_int (600 / (t_upper scenario_crop - t_base scenario_crop)) = 30%Z /\
  plan_estimated_days slow_crop 2000 = 365%Z /\
  Num.py_int (2000 / (t_upper slow_crop - t_base slow_crop)) = 400%Z /\
  ~ (exists buffer : Z,
        forall (p : CropParams) (hg : Q),
          (t_base p < t_upper p)%Q ->
          plan_estimated_days p hg =
          (Num.py_int (hg / (t_upper p - t_base p)) + buffer)%Z).
Proof.
  repeat split; try reflexivity.
  intros [buffer H].
  pose proof (H scenario_crop 600%Q eq_refl) as H1.
  pose proof (H slow_crop 2000%Q eq_refl) as H2.
  change (90 = 30 + buffer)%Z in H1. change (365 = 400 + buffer)%Z in H2. lia.
Qed.

(** C6 (amended): in plan mode the number of days is
    [min(int(harvest / max_daily) + 60, 365)] when
    [max_daily = t_upper - t_base > 0], and 365 otherwise, the
    difference and the quotient being the (finite) binary64 results the
    callback computes; the climate request of the callback runs from the
    planting date to the planting date plus that many days, capped at
    31 December 2050 (the addition raises [OverflowError] where that
    date would pass [date.max]). *)
Theorem projection_horizon
    (w : World) (n : Z) (lat lon : option Q) (cn v pds : option string)
    (mode : string) (ld : option string) (s : State)
    (la lo : Q) (pd : date) (p : CropParams) (hg : Q) :
  valid_request w lat lon cn v pds la lo pd p ->
  mode <> "check" ->
  (today w < pd)%Z ->
  stages_get "harvest" (stages p) = Some hg ->
  let max_daily := Num.fl_sub (t_upper p) (t_base p) in
  let days := plan_estimated_days p hg in
  Num.finite64 (t_upper p - t_base p) ->
  ((0 < max_daily)%Q -> Num.finite64 (hg / max_daily)) ->
  ((0 < max_daily)%Q ->
   days = Z.min (Num.py_int (Num.fl_div hg max_daily) + 60) 365) /\
  ((max_daily <= 0)%Q -> days = 365%Z) /\
  (forall e0 : date,
      Date.add_days pd days = Some e0 ->
      e0 = (pd + days)%Z /\
      exists rest : list call,
        calls (snd (compute_gdd w n lat lon cn v pds mode ld s)) =
        calls s ++
        Call_climate_api la lo pd (Z.min e0 App.DATE_CEILING) :: rest) /\
  (Date.add_days pd days = None ->
   compute_gdd w n lat lon cn v pds mode ld s = (Raise OverflowError, s)).
Proof.
  intros Hvalid Hmode Hpd Hh max_daily days _ _. subst max_daily days.
  split; [apply plan_estimated_days_positive_span|].
  split; [apply plan_estimated_days_no_span|].
  rewrite (compute_gdd_valid w n lat lon cn v pds mode ld la lo pd p Hvalid).
  cbv zeta. apply String.eqb_neq in Hmode. rewrite Hmode. split.
  - intros e0 Hadd. split.
    + unfold Date.add_days in Hadd.
      destruct (_ && _) in Hadd; [now inversion Hadd | discriminate].
    + apply plan_harvest_calls; [exact Hpd|].
      exists hg, e0. repeat split; assumption.
  - intros Hadd. unfold plan_harvest.
    replace (pd <=? today w)%Z with false by lia.
    rewrite Hh. unfold bind, plan_end_date. now rewrite Hadd.
Qed.

Lemma projection_horizon_witness :
  plan_estimated_days cool_crop 1960 = 159%Z /\
  Num.py_int (1960 / (t_upper cool_crop - t_base cool_crop)) = 100%Z /\
  exists rest : list call,
    calls (snd (compute_gdd cool_world 1 (Some 16%Q) (Some 120%Q)
                  (Some "cabbage") (Some "dry") (Some "2030-06-01") "plan"
                  None state0)) =
    calls state0 ++
    Call_climate_api 16 120 scenario_start
      (Z.min (scenario_start + 159) App.DATE_CEILING) :: rest.
Proof.
  destruct (projection_horizon cool_world 1 (Some 16%Q) (Some 120%Q)
              (Some "cabbage") (Some "dry") (Some "2030-06-01") "plan" None
              state0 16%Q 120%Q scenario_start cool_crop 1960%Q)
    as (Hpos & _ & Hreq & _).
  - repeat split; reflexivity.
  - discriminate.
  - reflexivity.
  - reflexivity.
  - vm_compute. reflexivity.
  - intros _. vm_compute. reflexivity.
  - split; [rewrite Hpos; [vm_compute; reflexivity | reflexivity]|].
    split; [reflexivity|].
    exact (proj2 (Hreq (scenario_start + 159)%Z ltac:(vm_compute; reflexivity))).
Defined.

(** ** Stage classification *)

Section Classifier.

Local Open Scope Q_scope.

Lemma valid_stages_inv st :
  valid_stages st ->
  exists t1 t2 t3 t4 : Q,
    st = [("initial", t1); ("development", t2); ("mid_season", t3);
          ("harvest", t4)] /\
    0 < t1 /\ t1 < t2 /\ t2 < t3 /\ t3 < t4.
Proof.
  intros [Hnames Hinc].
  destruct st as [|[n1 t1] [|[n2 t2] [|[n3 t3] [|[n4 t4] [|x r]]]]];
    try discriminate.
  inversion Hnames; subst. exists t1, t2, t3, t4.
  simpl in Hinc. intuition.
Qed.

(** The classifier on four stages, case by case. *)
Lemma determine_growing_stage_four c t1 t2 t3 t4 :
  determine_growing_stage c
    [("initial", t1); ("development", t2); ("mid_season", t3); ("harvest", t4)] =
  Some (mkClassification
          (if Qle_bool c t1 then "initial"
           else if Qle_bool c t2 then "development"
           else if Qle_bool c t3 then "mid_season"
           else "harvest")
          (if Qle_bool c t1 then (c - 0) / (t1 - 0)
           else if Qle_bool c t2 then (c - t1) / (t2 - t1)
           else if Qle_bool c t3 then (c - t2) / (t3 - t2)
           else if Qle_bool c t4 then (c - t3) / (t4 - t3)
           else 1)
          (Qmin (c / t4) 1)).
Proof.
  unfold determine_growing_stage. cbn [walk_stages].
  change (stages_get "harvest" _) with (Some t4).
  destruct (Qle_bool c t1), (Qle_bool c t2), (Qle_bool c t3),
    (Qle_bool c t4); reflexivity.
Qed.

Lemma fraction_bounds c lo hi :
  lo <= c -> c <= hi -> lo < hi ->
  0 <= (c - lo) / (hi - lo) <= 1.
Proof.
  intros H1 H2 H3. split.
  - apply Qle_shift_div_l; lra.
  - apply Qle_shift_div_r; lra.
Qed.

Ltac order_facts :=
  repeat match goal with
         | H : Qle_bool _ _ = true |- _ => apply Qle_bool_iff in H
         | H : Qle_bool _ _ = false |- _ => apply Qle_bool_false in H
         end.

(** The stage index of the class of [c]: how many of the first three
    thresholds [c] exceeds. *)
Lemma stage_index_four c t1 t2 t3 :
  stage_index (if Qle_bool c t1 then "initial"
               else if Qle_bool c t2 then "development"
               else if Qle_bool c t3 then "mid_season"
               else "harvest") =
  if Qle_bool c t1 then 0%nat
  else if Qle_bool c t2 then 1%nat
  else if Qle_bool c t3 then 2%nat
  else 3%nat.
Proof.
  destruct (Qle_bool c t1), (Qle_bool c t2), (Qle_bool c t3); reflexivity.
Qed.

Lemma classify_total c st :
  valid_stages st -> exists cl, determine_growing_stage c st = Some cl.
Proof.
  intros Hv. destruct (valid_stages_inv st Hv) as (t1 & t2 & t3 & t4 & -> & _).
  rewrite determine_growing_stage_four. eauto.
Qed.

Lemma classify_mono a b st cla clb :
  valid_stages st ->
  a <= b ->
  determine_growing_stage a st = Some cla ->
  determine_growing_stage b st = Some clb ->
  (stage_index (stage cla) <= stage_index (stage clb))%nat /\
  (stage cla = "harvest" -> stage clb = "harvest") /\
  stage cla ∈ STAGE_ORDER.
Proof.
  intros Hv Hab Ha Hb.
  destruct (valid_stages_inv st Hv)
    as (t1 & t2 & t3 & t4 & -> & H0 & H1 & H2 & H3).
  rewrite determine_growing_stage_four in Ha, Hb.
  inversion Ha; subst cla. inversion Hb; subst clb. cbn [stage].
  rewrite !stage_index_four.
  destruct (Qle_bool a t1) eqn:A1, (Qle_bool a t2) eqn:A2,
    (Qle_bool a t3) eqn:A3, (Qle_bool b t1) eqn:B1, (Qle_bool b t2) eqn:B2,
    (Qle_bool b t3) eqn:B3;
    order_facts; try lra;
    (split; [lia | split; [try discriminate; reflexivity |
       apply list_elem_of_In; simpl; tauto]]).
Qed.

End Classifier.

(** C4: for a non-negative cumulative GDD and validly ordered
    thresholds, the current stage is the earliest stage whose threshold
    is at least the cumulative value, with the fraction of the stage's
    span as its progress; past the harvest threshold the stage is
    "harvest" at 100%; [overall_progress] is
    [min(cumulative_gdd / harvest_threshold, 1)].  With the scenario
    thresholds 50, 150, 400, 600 and a cumulative GDD of 50 the stage is
    "initial" at 100% with overall progress 50/600. *)
Theorem classifier_current_stage (c : Q) (st : list (string * Q)) :
  (0 <= c)%Q ->
  valid_stages st ->
  exists (cl : Classification) (harvest : Q),
    determine_growing_stage c st = Some cl /\
    stages_get "harvest" st = Some harvest /\
    ((exists (i : nat) (thr : Q),
         st !! i = Some (stage cl, thr) /\ (c <= thr)%Q /\
         (forall (j : nat) (name' : string) (thr' : Q),
             (j < i)%nat -> st !! j = Some (name', thr') -> (thr' < c)%Q) /\
         (stage_progress cl ==
          (c - previous_threshold st i) / (thr - previous_threshold st i))%Q)
     \/
     ((harvest < c)%Q /\ stage cl = "harvest" /\ (stage_progress cl == 1)%Q)) /\
    (0 <= stage_progress cl <= 1)%Q /\
    (overall_progress cl == Qmin (c / harvest) 1)%Q /\
    (0 <= overall_progress cl <= 1)%Q /\
    ((c == 50)%Q -> st = stages scenario_crop ->
     stage cl = "initial" /\ (stage_progress cl == 1)%Q /\
     (overall_progress cl == 50 / 600)%Q).
Proof.
  intros Hc Hv.
  destruct (valid_stages_inv st Hv)
    as (t1 & t2 & t3 & t4 & -> & H0 & H1 & H2 & H3).
  rewrite determine_growing_stage_four.
  eexists _, t4. split; [reflexivity|]. split; [reflexivity|].
  cbn [stage stage_progress overall_progress].
  assert (Hover : (0 <= c / t4)%Q) by (apply Qle_shift_div_l; lra).
  split; [|split; [|split; [reflexivity|split; [|]]]].
  - destruct (Qle_bool c t1) eqn:E1; [|destruct (Qle_bool c t2) eqn:E2;
      [|destruct (Qle_bool c t3) eqn:E3; [|destruct (Qle_bool c t4) eqn:E4]]];
      repeat match goal with
             | H : Qle_bool _ _ = true |- _ => apply Qle_bool_iff in H
             | H : Qle_bool _ _ = false |- _ => apply Qle_bool_false in H
             end.
    + left. exists 0%nat, t1. repeat split; try done. intros; lia.
    + left. exists 1%nat, t2. repeat split; try done.
      intros [|j] n' t' Hj Hl; [|lia]. inversion Hl; subst. lra.
    + left. exists 2%nat, t3. repeat split; try done.
      intros [|[|j]] n' t' Hj Hl; [| |lia]; inversion Hl; subst; lra.
    + left. exists 3%nat, t4. repeat split; try done.
      intros [|[|[|j]]] n' t' Hj Hl; [| | |lia]; inversion Hl; subst; lra.
    + right. repeat split; done.
  - destruct (Qle_bool c t1) eqn:E1; [|destruct (Qle_bool c t2) eqn:E2;
      [|destruct (Qle_bool c t3) eqn:E3; [|destruct (Qle_bool c t4) eqn:E4]]];
      repeat match goal with
             | H : Qle_bool _ _ = true |- _ => apply Qle_bool_iff in H
             | H : Qle_bool _ _ = false |- _ => apply Qle_bool_false in H
             end;
      try (apply fraction_bounds; lra).
    split; discriminate.
  - split.
    + apply Q.min_glb; [exact Hover | discriminate].
    + apply Q.le_min_r.
  - intros H50 Hst. inversion Hst; subst.
    assert (E1 : Qle_bool c 50 = true) by (apply Qle_bool_iff; lra).
    rewrite E1. split; [reflexivity|]. split.
    + rewrite H50. reflexivity.
    + rewrite H50. apply Q.min_l. discriminate.
Qed.

Lemma classifier_current_stage_witness :
  exists (cl : Classification),
    determine_growing_stage 50 (stages scenario_crop) = Some cl /\
    stage cl = "initial" /\ (stage_progress cl == 1)%Q /\
    (overall_progress cl == 50 / 600)%Q.
Proof.
  destruct (classifier_current_stage 50%Q (stages scenario_crop))
    as (cl & harvest & Hrun & _ & _ & _ & _ & _ & Hscen).
  - discriminate.
  - split; [reflexivity|]. simpl. repeat split; reflexivity.
  - exists cl. split; [exact Hrun|]. apply Hscen; reflexivity.
Defined.

(** C7: with a fixed, validly ordered threshold mapping, along a
    strictly increasing sequence of cumulative GDD values the stage
    index never decreases: every value is classified into one of the
    four stages, a later value never into an earlier stage, and once the
    stage is "harvest" it stays "harvest". *)
Theorem classifier_monotone (st : list (string * Q)) (cs : list Q) :
  valid_stages st ->
  (forall (i j : nat) (a b : Q),
      (i < j)%nat -> cs !! i = Some a -> cs !! j = Some b -> (a < b)%Q) ->
  forall (i j : nat) (a b : Q),
    (i <= j)%nat -> cs !! i = Some a -> cs !! j = Some b ->
    exists cla clb : Classification,
      determine_growing_stage a st = Some cla /\
      determine_growing_stage b st = Some clb /\
      stage cla ∈ STAGE_ORDER /\
      (stage_index (stage cla) <= stage_index (stage clb))%nat /\
      (stage cla = "harvest" -> stage clb = "harvest").
Proof.
  intros Hv Hinc i j a b Hij Ha Hb.
  destruct (classify_total a st Hv) as [cla Hcla].
  destruct (classify_total b st Hv) as [clb Hclb].
  exists cla, clb. split; [exact Hcla|]. split; [exact Hclb|].
  assert (Hab : (a <= b)%Q).
  { destruct (Nat.eq_dec i j) as [->|Hne].
    - rewrite Ha in Hb. inversion Hb. apply Qle_refl.
    - apply Qlt_le_weak. apply (Hinc i j); [lia | exact Ha | exact Hb]. }
  destruct (classify_mono a b st cla clb Hv Hab Hcla Hclb) as (Hidx & Hterm & Hin).
  repeat split; assumption.
Qed.

Lemma classifier_monotone_witness :
  exists cla clb : Classification,
    determine_growing_stage 120 (stages scenario_crop) = Some cla /\
    determine_growing_stage 650 (stages scenario_crop) = Some clb /\
    stage cla ∈ STAGE_ORDER /\
    (stage_index (stage cla) <= stage_index (stage clb))%nat /\
    (stage cla = "harvest" -> stage clb = "harvest").
Proof.
  apply (classifier_monotone (stages scenario_crop) [40; 120; 410; 650]%Q
           ltac:(split; [reflexivity | simpl; repeat split; reflexivity])
           ltac:(intros [|[|[|[|i]]]] [|[|[|[|j]]]] a b Hij Ha Hb;
                 simpl in Ha, Hb; try lia; try discriminate;
                 inversion Ha; inversion Hb; subst; reflexivity)
           1%nat 3%nat 120%Q 650%Q); [lia | reflexivity | reflexivity].
Defined.

(** ** The scenarios, run end to end *)

(** Check mode on five days of 15 to 25 degrees: 50 GDD, stage
    "initial" at its boundary. *)
Example check_mode_scenario :
  exists (out : Output) (s' : State) (summary : StageSummary),
    compute_gdd scenario_world 1 (Some 16%Q) (Some 120%Q) (Some "maize")
      (Some "wet") (Some "2030-04-01") "check" None state0 = (Ok out, s') /\
    out_results out = CheckResults "maize_wet" summary /\
    sum_date summary = (scenario_past + 4)%Z /\
    (sum_cumulative_gdd summary == 50)%Q /\
    sum_stage summary = "initial" /\
    (sum_stage_progress summary == 1)%Q /\
    (sum_overall_progress summary == 50 / 600)%Q /\
    calls s' =
      [Call_fetch_daily_temp 16 120 scenario_past scenario_today;
       Call_compute_gdd_series; Call_summary_today].
Proof.
  eexists _, _, _. split; [vm_compute; reflexivity|].
  repeat split; reflexivity.
Qed.

(** Plan mode on the eight projected days: "initial" is reached on the
    sixth day, the other three stages lie beyond the projection. *)
Example plan_mode_scenario :
  exists (out : Output) (s' : State),
    compute_gdd scenario_world 1 (Some 16%Q) (Some 120%Q) (Some "maize")
      (Some "wet") (Some "2030-06-01") "plan" None state0 = (Ok out, s') /\
    out_results out =
      PlanResults "maize_wet" scenario_start
        [LineDate "initial" (scenario_start + 5)%Z 5;
         LineBeyond "development"; LineBeyond "mid_season";
         LineBeyond "harvest"] /\
    calls s' =
      [Call_climate_api 16 120 scenario_start (scenario_start + 90)%Z;
       Call_build_planning_chart].
Proof.
  eexists _, _. split; [vm_compute; reflexivity|].
  split; reflexivity.
Qed.

(** ** The callback: input checks and failures *)

(** The input checks run in a fixed order, each with its own message,
    before anything is fetched, allocated or looked up in the catalog. *)
Theorem input_checks
    (w : World) (n : Z) (lat lon : option Q)
    (cn v pds : option string) (mode : string) (ld : option string)
    (s : State) :
  let run := compute_gdd w n lat lon cn v pds mode ld s in
  ((lat = None \/ lon = None) ->
   run = (Ok (rejected None
                (Message "Please enter or search for a location.")), s)) /\
  (is_Some lat -> is_Some lon ->
   (falsy cn = true \/ falsy v = true) ->
   run = (Ok (rejected None (Message "Please select a crop and season.")), s)) /\
  (is_Some lat -> is_Some lon -> falsy cn = false -> falsy v = false ->
   falsy pds = true ->
   run = (Ok (rejected None (Message "Please select a planting date.")), s)) /\
  (is_Some lat -> is_Some lon -> falsy cn = false -> falsy v = false ->
   falsy pds = false ->
   fromisoformat w (default "" pds) = None ->
   run = (Ok (rejected None (Message "Invalid planting date.")), s)).
Proof.
  intros run. subst run. unfold compute_gdd. repeat split.
  - intros [-> | ->]; [reflexivity|]. now destruct lat.
  - intros [la ->] [lo ->] [H | H]; rewrite H; [reflexivity|].
    now rewrite orb_true_r.
  - intros [la ->] [lo ->] Hcn Hv Hpds. now rewrite Hcn, Hv, Hpds.
  - intros [la ->] [lo ->] Hcn Hv Hpds Hparse.
    now rewrite Hcn, Hv, Hpds, Hparse.
Qed.

Lemma input_checks_witness :
  compute_gdd scenario_world 1 None (Some 120%Q) (Some "maize") (Some "wet")
    (Some "2030-04-01") "check" None state0 =
  (Ok (rejected None (Message "Please enter or search for a location.")),
   state0) /\
  compute_gdd scenario_world 1 (Some 16%Q) (Some 120%Q) (Some "maize") (Some "")
    (Some "2030-04-01") "check" None state0 =
  (Ok (rejected None (Message "Please select a crop and season.")), state0) /\
  compute_gdd scenario_world 1 (Some 16%Q) (Some 120%Q) (Some "maize")
    (Some "wet") None "check" None state0 =
  (Ok (rejected None (Message "Please select a planting date.")), state0) /\
  compute_gdd scenario_world 1 (Some 16%Q) (Some 120%Q) (Some "maize")
    (Some "wet") (Some "1 April") "check" None state0 =
  (Ok (rejected None (Message "Invalid planting date.")), state0).
Proof.
  split; [|split; [|split]].
  - apply (proj1 (input_checks scenario_world 1 None (Some 120%Q)
                    (Some "maize") (Some "wet") (Some "2030-04-01") "check"
                    None state0)).
    left. reflexivity.
  - apply (proj1 (proj2 (input_checks scenario_world 1 (Some 16%Q) (Some 120%Q)
                    (Some "maize") (Some "") (Some "2030-04-01") "check"
                    None state0))); [eexists; reflexivity .. |].
    right. reflexivity.
  - apply (proj1 (proj2 (proj2 (input_checks scenario_world 1 (Some 16%Q)
                    (Some 120%Q) (Some "maize") (Some "wet") None "check"
                    None state0)))); first [reflexivity | eexists; reflexivity].
  - apply (proj2 (proj2 (proj2 (input_checks scenario_world 1 (Some 16%Q)
                    (Some 120%Q) (Some "maize") (Some "wet") (Some "1 April")
                    "check" None state0)))); first [reflexivity | eexists; reflexivity].
Defined.

(** A crop id that the catalog does not have is not reported as a
    message: the lookup [crops[crop_id]] raises [KeyError], in either
    mode, before the stage table is built or anything is fetched. *)
Theorem unknown_crop_raises
    (w : World) (n : Z) (la lo : Q) (cn v pds : option string)
    (mode : string) (ld : option string) (s : State) (pd : date) :
  falsy cn = false -> falsy v = false -> falsy pds = false ->
  fromisoformat w (default "" pds) = Some pd ->
  crops w !! request_crop_id cn v = None ->
  compute_gdd w n (Some la) (Some lo) cn v pds mode ld s =
  (Raise (KeyError (request_crop_id cn v)), s).
Proof.
  intros Hcn Hv Hpds Hparse Hcrop. unfold compute_gdd.
  rewrite Hcn, Hv, Hpds. cbn [orb]. rewrite Hparse.
  fold (request_crop_id cn v). now rewrite Hcrop.
Qed.

Lemma unknown_crop_raises_witness :
  compute_gdd scenario_world 1 (Some 16%Q) (Some 120%Q) (Some "maize")
    (Some "dry") (Some "2030-04-01") "check" None state0 =
  (Raise (KeyError "maize_dry"), state0).
Proof.
  apply (unknown_crop_raises scenario_world 1 16%Q 120%Q (Some "maize")
           (Some "dry") (Some "2030-04-01") "check" None state0 scenario_past);
    reflexivity.
Defined.

(** In plan mode a crop without a "harvest" stage raises [KeyError]
    before any climate data is requested. *)
Theorem plan_without_harvest_raises
    (w : World) (n : Z) (lat lon : option Q) (cn v pds : option string)
    (mode : string) (ld : option string) (s : State)
    (la lo : Q) (pd : date) (p : CropParams) :
  valid_request w lat lon cn v pds la lo pd p ->
  mode <> "check" ->
  (today w < pd)%Z ->
  stages_get "harvest" (stages p) = None ->
  compute_gdd w n lat lon cn v pds mode ld s = (Raise (KeyError "harvest"), s).
Proof.
  intros Hvalid Hmode Hpd Hh.
  rewrite (compute_gdd_valid w n lat lon cn v pds mode ld la lo pd p Hvalid).
  cbv zeta. apply String.eqb_neq in Hmode. rewrite Hmode.
  unfold plan_harvest. replace (pd <=? today w)%Z with false by lia.
  now rewrite Hh.
Qed.

Lemma plan_without_harvest_raises_witness :
  compute_gdd herb_world 1 (Some 16%Q) (Some 120%Q) (Some "herb") (Some "dry")
    (Some "2030-06-01") "plan" None state0 = (Raise (KeyError "harvest"), state0).
Proof.
  apply (plan_without_harvest_raises herb_world 1 (Some 16%Q) (Some 120%Q)
           (Some "herb") (Some "dry") (Some "2030-06-01") "plan" None state0
           16%Q 120%Q scenario_start herb_crop).
  - repeat split; reflexivity.
  - discriminate.
  - reflexivity.
  - reflexivity.
Defined.

(** An exception of the historical weather provider never leaves the
    callback: check mode answers "Could not fetch weather data: ..."
    with the exception, and nothing is allocated or computed. *)
Theorem check_fetch_failure_is_reported
    (w : World) (n : Z) (lat lon : option Q) (cn v pds : option string)
    (ld : option string) (s : State)
    (la lo : Q) (pd : date) (p : CropParams) (ex : exn) :
  valid_request w lat lon cn v pds la lo pd p ->
  (pd <= today w)%Z ->
  daily_temp_api w la lo pd (today w) = Raise ex ->
  compute_gdd w n lat lon cn v pds "check" ld s =
  (Ok (rejected (Some (build_stage_table p (request_crop_id cn v)))
         (FetchFailed "Could not fetch weather data: " ex)),
   mkState (heap s) (calls s ++ [Call_fetch_daily_temp la lo pd (today w)])).
Proof.
  intros Hvalid Hpd Hapi.
  rewrite (compute_gdd_valid w n lat lon cn v pds "check" ld la lo pd p Hvalid).
  cbv zeta. rewrite String.eqb_refl. unfold check_progress.
  replace (pd >? today w)%Z with false by lia.
  unfold try_except, fetch_daily_temp, bind, log, raise, ret.
  cbn [heap calls]. now rewrite Hapi.
Qed.

Lemma check_fetch_failure_is_reported_witness :
  compute_gdd offline_world 1 (Some 16%Q) (Some 120%Q) (Some "maize")
    (Some "wet") (Some "2030-04-01") "check" None state0 =
  (Ok (rejected (Some (build_stage_table scenario_crop "maize_wet"))
         (FetchFailed "Could not fetch weather data: " (IOError "timeout"))),
   mkState [] [Call_fetch_daily_temp 16 120 scenario_past scenario_today]).
Proof.
  apply (check_fetch_failure_is_reported offline_world 1 (Some 16%Q)
           (Some 120%Q) (Some "maize") (Some "wet") (Some "2030-04-01") None
           state0 16%Q 120%Q scenario_past scenario_crop (IOError "timeout")).
  - repeat split; reflexivity.
  - discriminate.
  - reflexivity.
Defined.

(** Plan mode reports every failure of the climate fetch as "Could not
    fetch climate data: ...": an exception of the API call, and the
    [ValueError] pandas raises when the response has dates but another
    number of minimum or maximum temperatures.  Nothing is allocated and
    no projection is computed. *)
Theorem plan_fetch_failure_is_reported
    (w : World) (n : Z) (lat lon : option Q) (cn v pds : option string)
    (mode : string) (ld : option string) (s : State)
    (la lo : Q) (pd e : date) (p : CropParams) :
  valid_request w lat lon cn v pds la lo pd p ->
  mode <> "check" ->
  (today w < pd)%Z ->
  plan_horizon p pd e ->
  let failed (ex : exn) :=
    compute_gdd w n lat lon cn v pds mode ld s =
    (Ok (rejected (Some (build_stage_table p (request_crop_id cn v)))
           (FetchFailed "Could not fetch climate data: " ex)),
     mkState (heap s) (calls s ++ [Call_climate_api la lo pd e])) in
  (forall ex : exn, climate_api w la lo pd e = Raise ex -> failed ex) /\
  (forall data : ClimateData,
      climate_api w la lo pd e = Ok data ->
      response_dates data <> [] ->
      (length (response_tmins data) <> length (response_dates data) \/
       length (response_tmaxs data) <> length (response_dates data)) ->
      failed (ValueError "All arrays must be of the same length")).
Proof.
  intros Hvalid Hmode Hpd Hhor failed. subst failed. cbv beta.
  rewrite (compute_gdd_valid w n lat lon cn v pds mode ld la lo pd p Hvalid).
  cbv zeta. apply String.eqb_neq in Hmode. rewrite Hmode.
  rewrite (plan_harvest_fetch w _ la lo _ p pd _ s e Hpd Hhor).
  unfold fetch_climate_temp, bind, log, raise. cbn [heap calls]. split.
  - intros ex Hapi. now rewrite Hapi.
  - intros data Hapi Hne Hlen. rewrite Hapi.
    fold (response_dates data) (response_tmins data) (response_tmaxs data).
    destruct (response_dates data) as [|d ds] eqn:Hd; [congruence|].
    rewrite !length_map.
    replace ((length (response_tmins data) =? length (d :: ds))%nat &&
             (length (response_tmaxs data) =? length (d :: ds))%nat)
      with false; [reflexivity|].
    symmetry. apply andb_false_iff.
    destruct Hlen as [H | H]; [left | right]; now apply Nat.eqb_neq.
Qed.

Lemma plan_fetch_failure_is_reported_witness :
  compute_gdd ragged_world 1 (Some 16%Q) (Some 120%Q) (Some "maize")
    (Some "wet") (Some "2030-06-01") "plan" None state0 =
  (Ok (rejected (Some (build_stage_table scenario_crop "maize_wet"))
         (FetchFailed "Could not fetch climate data: "
            (ValueError "All arrays must be of the same length"))),
   mkState [] [Call_climate_api 16 120 scenario_start (scenario_start + 90)%Z]).
Proof.
  apply (proj2 (plan_fetch_failure_is_reported ragged_world 1 (Some 16%Q)
                  (Some 120%Q) (Some "maize") (Some "wet") (Some "2030-06-01")
                  "plan" None state0 16%Q 120%Q scenario_start
                  (scenario_start + 90)%Z scenario_crop
                  ltac:(repeat split; reflexivity) ltac:(discriminate)
                  ltac:(reflexivity)
                  ltac:(exists 600%Q, (scenario_start + 90)%Z;
                        repeat split; reflexivity))
           ragged_response).
  - reflexivity.
  - discriminate.
  - left. discriminate.
Defined.

(** ** The callback: what its outputs have in common *)

(** One step of a monadic run towards a successful result. *)
Ltac bind_case :=
  unfold bind at 1;
  match goal with
  | |- (let (_, _) := ?c in _) = _ -> _ =>
      destruct c as [[?|?] ?]; [|discriminate]
  | |- match ?c with _ => _ end = _ -> _ =>
      destruct c as [[?|?] ?]; [|discriminate]
  end.

Lemma rejected_consistent tbl text :
  output_consistent (rejected tbl (Message text)).
Proof. left. repeat split. exists text. now left. Qed.

Lemma rejected_fetch_consistent tbl text ex :
  output_consistent (rejected tbl (FetchFailed text ex)).
Proof. left. repeat split. exists text. right. now exists ex. Qed.

Lemma check_progress_consistent w tbl la lo cid p pd ln s out s' :
  check_progress w tbl la lo cid p pd ln s = (Ok out, s') ->
  output_consistent out.
Proof.
  unfold check_progress.
  destruct (pd >? today w)%Z.
  { intros H; inversion H. apply rejected_consistent. }
  unfold bind at 1, try_except, bind at 1.
  destruct (fetch_daily_temp w la lo pd (today w) s) as [[weather|ex] s1];
    unfold ret at 1.
  2:{ intros H; inversion H. apply rejected_fetch_consistent. }
  bind_case.
  match goal with |- context [df_empty ?d] => destruct (df_empty d) end.
  { intros H; inversion H. apply rejected_consistent. }
  bind_case. bind_case. bind_case. bind_case.
  intros H; inversion H. right. cbn.
  repeat split; [eexists; reflexivity|]. left.
  repeat eexists.
Qed.

Lemma plan_harvest_consistent w tbl la lo cid p pd ln s out s' :
  plan_harvest w tbl la lo cid p pd ln s = (Ok out, s') ->
  output_consistent out.
Proof.
  unfold plan_harvest.
  destruct (pd <=? today w)%Z.
  { intros H; inversion H. apply rejected_consistent. }
  destruct (stages_get "harvest" (stages p)) as [hg|]; [|discriminate].
  bind_case.
  unfold bind at 1, try_except, bind at 1.
  match goal with
  | |- context [fetch_climate_temp w la lo pd ?e ?s0] =>
      destruct (fetch_climate_temp w la lo pd e s0) as [[weather|ex] s1]
  end; unfold ret at 1.
  2:{ intros H; inversion H. apply rejected_fetch_consistent. }
  bind_case.
  match goal with |- context [df_empty ?d] => destruct (df_empty d) end.
  { intros H; inversion H. apply rejected_consistent. }
  bind_case.
  match goal with r : (Figure * gmap string date)%type |- _ => destruct r as [chart_fig sd] end.
  bind_case.
  intros H; inversion H. right. cbn.
  repeat split; [eexists; reflexivity|]. right.
  repeat eexists.
Qed.

(** Whenever the callback returns, its outputs agree with each other:
    either a message with empty figures, hidden download button and
    empty stores; or results together with a visible download button, a
    report that carries the same summary or stage dates as the results
    panel, and a chart store that holds the displayed chart. *)
Theorem callback_outputs_agree
    (w : World) (n : Z) (lat lon : option Q)
    (cn v pds : option string) (mode : string) (ld : option string)
    (s s' : State) (out : Output) :
  compute_gdd w n lat lon cn v pds mode ld s = (Ok out, s') ->
  output_consistent out.
Proof.
  unfold compute_gdd.
  destruct lat as [la|];
    [|intros H; inversion H; apply rejected_consistent].
  destruct lon as [lo|];
    [|intros H; inversion H; apply rejected_consistent].
  destruct (falsy cn || falsy v);
    [intros H; inversion H; apply rejected_consistent|].
  destruct (falsy pds);
    [intros H; inversion H; apply rejected_consistent|].
  destruct (fromisoformat w (default "" pds)) as [pd|];
    [|intros H; inversion H; apply rejected_consistent].
  destruct (crops w !! _) as [p|]; [|discriminate].
  destruct (String.eqb mode "check").
  - apply check_progress_consistent.
  - apply plan_harvest_consistent.
Qed.

Lemma callback_outputs_agree_witness :
  exists out : Output,
    fst (compute_gdd scenario_world 1 (Some 16%Q) (Some 120%Q) (Some "maize")
           (Some "wet") (Some "2030-06-01") "plan" None state0) = Ok out /\
    output_consistent out.
Proof.
  eexists. split; [vm_compute; reflexivity|].
  eapply (callback_outputs_agree scenario_world 1 (Some 16%Q) (Some 120%Q)
            (Some "maize") (Some "wet") (Some "2030-06-01") "plan" None state0).
  vm_compute. reflexivity.
Defined.

(** ** The projected stage dates as a whole *)

Section StageDates.

Local Open Scope Q_scope.

(** A threshold reached at some row is reached, no later, by every
    lower threshold. *)
Lemma first_reached_lower dates cum t1 t2 d2 entry :
  t1 <= t2 ->
  first_reached dates cum t2 d2 ->
  stage_date_spec dates cum t1 entry ->
  exists d1, entry = Some d1 /\
    (dates_ascending dates -> (d1 <= d2)%Z).
Proof.
  intros Hle (i2 & c2 & Hc2 & Ht2 & Hd2 & Hbefore2) Hspec.
  destruct entry as [d1|]; simpl in Hspec.
  - exists d1. split; [reflexivity|]. intros Hasc.
    apply (first_reached_earliest dates cum t1 d1 Hspec Hasc i2 d2 c2);
      [exact Hd2 | exact Hc2 | lra].
  - specialize (Hspec i2 c2 Hc2). lra.
Qed.

Lemma first_reached_in_series dates cum thr d :
  first_reached dates cum thr d -> d ∈ dates.
Proof.
  intros (i & c & _ & _ & Hd & _). eapply list_elem_of_lookup_2; eauto.
Qed.

(** The result of a call on a frame of the heap, in one place. *)
Lemma build_planning_chart_result h cs l df p cid ln pd fig sd s' :
  h !! l = Some df ->
  df_wf df ->
  NoDup (map fst (stages p)) ->
  build_planning_chart l p cid ln pd (mkState h cs) = (Ok (fig, sd), s') ->
  (forall name, name ∉ map fst (stages p) -> sd !! name = None) /\
  (forall name thr, (name, thr) ∈ stages p ->
     stage_date_spec (col_date df) (cumulative_gdd_column p df) thr
       (sd !! name)) /\
  fig_hlines fig =
    map (fun item =>
           mkHLine (snd item)
             match sd !! fst item with
             | Some d => AnnReached (fst item) d
             | None => AnnBeyond (fst item) (df_len df)
             end) (stages p).
Proof.
  intros Hl Hwf Hnd Hrun.
  destruct (build_planning_chart_ok h cs l df p cid ln pd Hl Hwf Hnd)
    as (fig0 & sd0 & Hrun0 & H).
  rewrite Hrun0 in Hrun. inversion Hrun; subst. exact H.
Qed.

End StageDates.

(** The projected stage dates come in threshold order: when a stage is
    reached, every stage of the crop with a lower or equal threshold is
    reached as well, and on a series in date order no later. *)
Theorem stage_dates_follow_thresholds
    (h : list DataFrame) (cs : list call) (l : loc) (df : DataFrame)
    (p : CropParams) (cid : string) (ln : LocationName) (pd : date)
    (fig : Figure) (sd : gmap string date) (s' : State) :
  h !! l = Some df ->
  df_wf df ->
  NoDup (map fst (stages p)) ->
  build_planning_chart l p cid ln pd (mkState h cs) = (Ok (fig, sd), s') ->
  forall (n1 n2 : string) (t1 t2 : Q) (d2 : date),
    (n1, t1) ∈ stages p -> (n2, t2) ∈ stages p -> (t1 <= t2)%Q ->
    sd !! n2 = Some d2 ->
    exists d1 : date,
      sd !! n1 = Some d1 /\
      (dates_ascending (col_date df) -> (d1 <= d2)%Z).
Proof.
  intros Hl Hwf Hnd Hrun n1 n2 t1 t2 d2 H1 H2 Hle Hd2.
  destruct (build_planning_chart_result h cs l df p cid ln pd fig sd s'
              Hl Hwf Hnd Hrun) as (_ & Hitems & _).
  pose proof (Hitems n2 t2 H2) as Hs2. rewrite Hd2 in Hs2. simpl in Hs2.
  exact (first_reached_lower _ _ t1 t2 d2 _ Hle Hs2 (Hitems n1 t1 H1)).
Qed.

(** The estimator never extrapolates and never invents a stage: every
    entry of [stage_dates] belongs to a stage of the crop, and its date
    is the date of a row of the weather series. *)
Theorem stage_dates_within_series
    (h : list DataFrame) (cs : list call) (l : loc) (df : DataFrame)
    (p : CropParams) (cid : string) (ln : LocationName) (pd : date)
    (fig : Figure) (sd : gmap string date) (s' : State) :
  h !! l = Some df ->
  df_wf df ->
  NoDup (map fst (stages p)) ->
  build_planning_chart l p cid ln pd (mkState h cs) = (Ok (fig, sd), s') ->
  forall (name : string) (d : date),
    sd !! name = Some d ->
    name ∈ map fst (stages p) /\ d ∈ col_date df.
Proof.
  intros Hl Hwf Hnd Hrun name d Hd.
  destruct (build_planning_chart_result h cs l df p cid ln pd fig sd s'
              Hl Hwf Hnd Hrun) as (Hother & Hitems & _).
  assert (Hin : name ∈ map fst (stages p)).
  { destruct (decide (name ∈ map fst (stages p))) as [Hin|Hout];
      [exact Hin|]. rewrite (Hother name Hout) in Hd. discriminate. }
  split; [exact Hin|].
  change (map fst (stages p)) with (fst <$> stages p) in Hin.
  apply list_elem_of_fmap in Hin as ([name' thr] & -> & Hitem).
  specialize (Hitems name' thr Hitem). cbn [fst] in Hd.
  rewrite Hd in Hitems.
  exact (first_reached_in_series _ _ _ _ Hitems).
Qed.

Lemma stage_dates_follow_thresholds_witness :
  exists (fig : Figure) (sd : gmap string date) (s' : State),
    quick_projection = (Ok (fig, sd), s') /\
    sd !! "development" = Some (scenario_start + 3)%Z /\
    exists d1 : date, sd !! "initial" = Some d1 /\ (d1 <= scenario_start + 3)%Z.
Proof.
  destruct quick_projection as [[[fig sd]|e] s'] eqn:E;
    [|vm_compute in E; discriminate].
  exists fig, sd, s'. split; [reflexivity|].
  assert (Hdev : sd !! "development" = Some (scenario_start + 3)%Z).
  { assert (H : match fst quick_projection with
                | Ok (_, sd0) => sd0 !! "development"
                | Raise _ => None
                end = Some (scenario_start + 3)%Z) by (vm_compute; reflexivity).
    rewrite E in H. exact H. }
  split; [exact Hdev|].
  destruct (stage_dates_follow_thresholds [scenario_frame] [] 0%nat
              scenario_frame quick_crop "lettuce_dry" (LocNamed "La Trinidad")
              scenario_start fig sd s' eq_refl
              ltac:(split; reflexivity)
              ltac:(apply (bool_decide_unpack _); vm_compute; reflexivity)
              E "initial" "development" 20%Q 40%Q (scenario_start + 3)%Z)
    as (d1 & Hd1 & Hle).
  - apply list_elem_of_In. simpl. tauto.
  - apply list_elem_of_In. simpl. tauto.
  - discriminate.
  - exact Hdev.
  - exists d1. split; [exact Hd1|]. apply Hle.
    intros [|[|[|[|[|i]]]]] [|[|[|[|[|j]]]]] di dj Hij Hi Hj;
      simpl in Hi, Hj; try lia; try discriminate;
      inversion Hi; inversion Hj; subst; reflexivity.
Defined.

Lemma stage_dates_within_series_witness :
  exists (fig : Figure) (sd : gmap string date) (s' : State),
    quick_projection = (Ok (fig, sd), s') /\
    (scenario_start + 1)%Z ∈ col_date scenario_frame.
Proof.
  destruct quick_projection as [[[fig sd]|e] s'] eqn:E;
    [|vm_compute in E; discriminate].
  exists fig, sd, s'. split; [reflexivity|].
  apply (stage_dates_within_series [scenario_frame] [] 0%nat
           scenario_frame quick_crop "lettuce_dry" (LocNamed "La Trinidad")
           scenario_start fig sd s' eq_refl
           ltac:(split; reflexivity)
           ltac:(apply (bool_decide_unpack _); vm_compute; reflexivity)
           E "initial" (scenario_start + 1)%Z).
  assert (H : match fst quick_projection with
              | Ok (_, sd0) => sd0 !! "initial"
              | Raise _ => None
              end = Some (scenario_start + 1)%Z) by (vm_compute; reflexivity).
  rewrite E in H. exact H.
Defined.

(** ** The charts *)

Section Charts.

Local Open Scope Q_scope.

Lemma x_days_of_length n : length (x_days_of n) = n.
Proof. unfold x_days_of. now rewrite length_map, length_seq. Qed.

Lemma x_days_of_lookup n k :
  (k < n)%nat -> x_days_of n !! k = Some (Z.of_nat (S k)).
Proof.
  intros Hk. unfold x_days_of.
  change (map Z.of_nat (seq 1 n)) with (Z.of_nat <$> seq 1 n).
  rewrite list_lookup_fmap, lookup_seq_lt by exact Hk. reflexivity.
Qed.

Lemma x_days_of_last n : last (x_days_of (S n)) = Some (Z.of_nat (S n)).
Proof.
  rewrite last_lookup, x_days_of_length. cbn [pred].
  apply x_days_of_lookup. lia.
Qed.

(** The stage loop adds threshold lines only. *)
Lemma stage_loop_traces dates cum n items fig sd s fig' sd' :
  fst (stage_loop dates cum n items fig sd s) = Ok (fig', sd') ->
  fig_traces fig' = fig_traces fig.
Proof.
  revert fig sd. induction items as [|[name thr] rest IH]; intros fig sd.
  - simpl. intros H. now inversion H.
  - simpl. destruct (reached_index cum thr) as [|i more].
    + intros H. now rewrite (IH _ _ H).
    + destruct (dates !! i); [|discriminate].
      intros H. now rewrite (IH _ _ H).
Qed.

(** The lines of the projected chart. *)
Lemma build_planning_chart_traces h cs l df p cid ln pd fig sd s' :
  h !! l = Some df ->
  build_planning_chart l p cid ln pd (mkState h cs) = (Ok (fig, sd), s') ->
  fig_traces fig =
    [mkTrace "Ideal GDD" (x_days_of (df_len df))
       (map (fun i => (t_upper p - t_base p) * inject_Z i)
          (x_days_of (df_len df)));
     mkTrace "Projected GDD (Climate Model)" (x_days_of (df_len df))
       (cumulative_gdd_column p df)] /\
  fig_title fig = Some (TitleProjected cid ln).
Proof.
  intros Hl.
  unfold build_planning_chart, df_copy, bind, log, deref, alloc,
    update, get_column, ret. cbn [heap calls].
  rewrite Hl. heap_steps.
  match goal with
  | |- context [stage_loop ?d ?c ?n ?i ?f ?sd0 ?s] =>
      generalize (stage_loop_traces d c n i f sd0 s);
      destruct (stage_loop d c n i f sd0 s) as [[[fig' sd']|e] s1]
  end; [|discriminate].
  intros Htr Hrun. specialize (Htr fig' sd' eq_refl).
  inversion Hrun; subst. cbn. rewrite Htr. split; reflexivity.
Qed.

End Charts.

(** The projected chart has two lines with one point per weather row,
    against the days 1, 2, ...: the ideal line rises by
    [t_upper - t_base] a day, the projected line is the cumulative
    column; and there is one threshold line per stage of the crop, in
    the order of the mapping, at the height of the threshold. *)
Theorem projected_chart_layout
    (h : list DataFrame) (cs : list call) (l : loc) (df : DataFrame)
    (p : CropParams) (cid : string) (ln : LocationName) (pd : date)
    (fig : Figure) (sd : gmap string date) (s' : State) :
  h !! l = Some df ->
  df_wf df ->
  NoDup (map fst (stages p)) ->
  build_planning_chart l p cid ln pd (mkState h cs) = (Ok (fig, sd), s') ->
  exists (days : list Z) (ideal projected : list Q),
    fig_traces fig =
      [mkTrace "Ideal GDD" days ideal;
       mkTrace "Projected GDD (Climate Model)" days projected] /\
    length days = df_len df /\
    length ideal = df_len df /\
    length projected = df_len df /\
    (forall k : nat,
        (k < df_len df)%nat ->
        days !! k = Some (Z.of_nat (S k)) /\
        ideal !! k =
          Some ((t_upper p - t_base p) * inject_Z (Z.of_nat (S k)))%Q) /\
    projected = cumulative_gdd_column p df /\
    map hl_y (fig_hlines fig) = map snd (stages p).
Proof.
  intros Hl Hwf Hnd Hrun.
  destruct (build_planning_chart_traces h cs l df p cid ln pd fig sd s' Hl Hrun)
    as [Htr _].
  destruct (build_planning_chart_result h cs l df p cid ln pd fig sd s'
              Hl Hwf Hnd Hrun) as (_ & _ & Hhl).
  eexists _, _, _. split; [exact Htr|].
  rewrite length_map, x_days_of_length.
  split; [reflexivity|]. split; [reflexivity|].
  split; [now apply cumulative_gdd_column_length|]. split; [|split].
  - intros k Hk. split; [now apply x_days_of_lookup|].
    change (map ?f (x_days_of ?n)) with (f <$> x_days_of n).
    now rewrite list_lookup_fmap, x_days_of_lookup.
  - reflexivity.
  - rewrite Hhl, map_map. reflexivity.
Qed.

Lemma projected_chart_layout_witness :
  exists (fig : Figure) (sd : gmap string date) (s' : State),
    quick_projection = (Ok (fig, sd), s') /\
    map hl_y (fig_hlines fig) = map snd (stages quick_crop).
Proof.
  destruct quick_projection as [[[fig sd]|e] s'] eqn:E;
    [|vm_compute in E; discriminate].
  exists fig, sd, s'. split; [reflexivity|].
  destruct (projected_chart_layout [scenario_frame] [] 0%nat
              scenario_frame quick_crop "lettuce_dry" (LocNamed "La Trinidad")
              scenario_start fig sd s' eq_refl
              ltac:(split; reflexivity)
              ltac:(apply (bool_decide_unpack _); vm_compute; reflexivity) E)
    as (days & ideal & projected & _ & _ & _ & _ & _ & _ & Hlines).
  exact Hlines.
Defined.

(** The progress chart of check mode needs the derived series: without a
    [cumulative_gdd] column it raises [KeyError], on a series without
    rows [IndexError]; otherwise the "Current" marker sits on the last
    day at the last cumulative value, the end of the "Actual GDD" line,
    and every stage of the crop has its threshold line.  The heap is
    only read. *)
Theorem progress_chart_marker
    (season : CropSeason) (s : State) (df : DataFrame) :
  heap s !! weather season = Some df ->
  (col_cumulative_gdd df = None ->
   build_progress_chart season s = (Raise (KeyError "cumulative_gdd"), s)) /\
  (col_cumulative_gdd df = Some [] ->
   build_progress_chart season s = (Raise IndexError, s)) /\
  (forall (cum : list Q) (c : Q),
      col_cumulative_gdd df = Some cum ->
      last cum = Some c ->
      exists (fig : Figure) (ideal : list Q),
        build_progress_chart season s = (Ok fig, s) /\
        fig_traces fig =
          [mkTrace "Ideal GDD" (x_days_of (length cum)) ideal;
           mkTrace "Actual GDD" (x_days_of (length cum)) cum;
           mkTrace "Current" [Z.of_nat (length cum)] [c]] /\
        length ideal = length cum /\
        fig_hlines fig =
          map (fun item => mkHLine (snd item) (AnnStage (fst item)))
            (stages (params season))).
Proof.
  intros Hw. unfold build_progress_chart, bind, deref, get_column.
  rewrite Hw. split; [|split].
  - intros ->. reflexivity.
  - intros ->. reflexivity.
  - intros cum c -> Hlast. unfold ret at 1.
    destruct cum as [|c0 r]; [discriminate|].
    cbn [length]. rewrite x_days_of_last, Hlast.
    eexists _, _. split; [reflexivity|].
    split; [|split].
    + match goal with
      | |- fig_traces (update_layout _ (fold_left ?f ?l ?a)) = _ =>
          assert (Hfold : forall l0 a0,
                     fig_traces (fold_left f l0 a0) = fig_traces a0 /\
                     fig_hlines (fold_left f l0 a0) =
                       fig_hlines a0 ++
                       map (fun item => mkHLine (snd item) (AnnStage (fst item))) l0)
      end.
      { induction l0 as [|[name thr] l0 IH]; intros a0; simpl.
        - now rewrite app_nil_r.
        - destruct (IH (add_hline thr (AnnStage name) a0)) as [-> ->].
          simpl. now rewrite <- app_assoc. }
      cbn [update_layout fig_traces]. rewrite (proj1 (Hfold _ _)). reflexivity.
    + now rewrite length_map, x_days_of_length.
    + cbn [update_layout fig_hlines].
      match goal with
      | |- fig_hlines (fold_left ?f ?l ?a) = _ =>
          assert (Hfold : forall l0 a0,
                     fig_hlines (fold_left f l0 a0) =
                       fig_hlines a0 ++
                       map (fun item => mkHLine (snd item) (AnnStage (fst item))) l0)
      end.
      { induction l0 as [|[name thr] l0 IH]; intros a0; simpl.
        - now rewrite app_nil_r.
        - rewrite IH. simpl. now rewrite <- app_assoc. }
      rewrite Hfold. reflexivity.
Qed.

Lemma progress_chart_marker_witness :
  exists (fig : Figure) (ideal : list Q) (c : Q),
    build_progress_chart derived_season derived_state = (Ok fig, derived_state) /\
    fig_traces fig =
      [mkTrace "Ideal GDD" (x_days_of 5) ideal;
       mkTrace "Actual GDD" (x_days_of 5)
         (cumulative_gdd_column scenario_crop scenario_frame);
       mkTrace "Current" [5%Z] [c]] /\
    (c == 50)%Q.
Proof.
  destruct (proj2 (proj2 (progress_chart_marker derived_season derived_state
                            (planned_frame scenario_crop scenario_frame)
                            eq_refl))
              (cumulative_gdd_column scenario_crop scenario_frame)
              (1600 # 32)%Q eq_refl eq_refl)
    as (fig & ideal & Hrun & Htr & _).
  exists fig, ideal, (1600 # 32)%Q.
  split; [exact Hrun|]. split; [exact Htr | reflexivity].
Defined.

(** ** The frames [fetch_climate_temp] returns *)

(** Whatever the climate API answers, a frame returned by
    [fetch_climate_temp] is a new object whose three columns have one
    length and that has no derived column yet; it has no rows exactly
    when the response has no dates, whatever temperatures it carries;
    and when the fetch raises, no frame is allocated.  Frames that
    existed before are not touched. *)
Theorem fetched_frame_invariants
    (w : World) (la lo : Q) (sd ed : date) (s s1 : State)
    (r : result loc) :
  fetch_climate_temp w la lo sd ed s = (r, s1) ->
  calls s1 = calls s ++ [Call_climate_api la lo sd ed] /\
  (forall ex : exn, r = Raise ex -> heap s1 = heap s) /\
  (forall l : loc,
      r = Ok l ->
      l = length (heap s) /\
      exists (df : DataFrame) (data : ClimateData),
        climate_api w la lo sd ed = Ok data /\
        heap s1 = heap s ++ [df] /\
        df_wf df /\
        col_date df = response_dates data /\
        col_daily_gdd df = None /\ col_cumulative_gdd df = None /\
        (df_empty df = true <-> response_dates data = [])).
Proof.
  intros Hrun. split.
  { pose proof (fetch_climate_temp_calls w la lo sd ed s) as H.
    now rewrite Hrun in H. }
  revert Hrun.
  unfold fetch_climate_temp, bind, log, alloc, raise. cbn [heap calls].
  destruct (climate_api w la lo sd ed) as [data|ex0] eqn:Hapi.
  2:{ intros H; inversion H; subst. split; [reflexivity | discriminate]. }
  fold (response_dates data) (response_tmins data) (response_tmaxs data).
  destruct (response_dates data) as [|d ds] eqn:Hd.
  - intros H; inversion H; subst. split; [discriminate|].
    intros l Hl. inversion Hl; subst. split; [reflexivity|].
    exists empty_frame, data. rewrite Hd.
    repeat split; try reflexivity; auto.
  - rewrite !length_map.
    destruct ((length (response_tmins data) =? length (d :: ds))%nat &&
              (length (response_tmaxs data) =? length (d :: ds))%nat) eqn:Hlen.
    + apply andb_true_iff in Hlen as [Hmin Hmax].
      apply Nat.eqb_eq in Hmin, Hmax.
      intros H; inversion H; subst. split; [discriminate|].
      intros l Hl. inversion Hl; subst. split; [reflexivity|].
      eexists _, data. rewrite Hd.
      split; [reflexivity|]. split; [reflexivity|].
      split; [split; cbn; now rewrite length_map|].
      repeat split; try reflexivity; discriminate.
    + intros H; inversion H; subst. split; [reflexivity | discriminate].
Qed.

Lemma fetched_frame_invariants_witness :
  exists df : DataFrame,
    heap (snd (fetch_climate_temp scenario_world 16 120 scenario_start
                 (scenario_start + 90)%Z state0)) = [df] /\
    df_wf df /\ col_daily_gdd df = None.
Proof.
  destruct (fetch_climate_temp scenario_world 16 120 scenario_start
              (scenario_start + 90)%Z state0) as [r s1] eqn:E.
  destruct (fetched_frame_invariants scenario_world 16 120 scenario_start
              (scenario_start + 90)%Z state0 s1 r E) as (_ & _ & Hok).
  assert (Hr : r = Ok 0%nat) by (vm_compute in E; now inversion E).
  destruct (Hok 0%nat Hr) as (_ & df & data & _ & Hheap & Hwf & _ & Hnone & _).
  exists df. split; [exact Hheap|]. split; assumption.
Defined.

(** ** The date picker and the mode guards *)

Section Picker.

Local Open Scope Q_scope.

Lemma py_int_nonneg q : 0 <= q -> (0 <= Num.py_int q)%Z.
Proof.
  intros Hq. unfold Num.py_int. apply Z.quot_pos; [|lia].
  unfold Qle in Hq. simpl in Hq. lia.
Qed.

(** With a non-negative heat requirement the horizon is between 60 and
    365 days. *)
Lemma plan_estimated_days_bounds p hg :
  0 <= hg -> (60 <= plan_estimated_days p hg <= 365)%Z.
Proof.
  intros Hhg. split; [|apply plan_estimated_days_le].
  unfold plan_estimated_days, Num.Qgt_bool.
  destruct (Qle_bool (Num.fl_sub (t_upper p) (t_base p)) 0) eqn:E;
    cbn [negb]; [lia|].
  apply Qle_bool_false in E.
  assert (0 <= hg / Num.fl_sub (t_upper p) (t_base p))
    by (apply Qle_shift_div_l; lra).
  pose proof (py_int_nonneg _ (round64_nonneg _ H)) as Hk.
  unfold Num.fl_div. lia.
Qed.

(** After the mode guard a callback cannot end in the state it started
    in with a rejection: it raises, or it has logged its fetch. *)
Lemma check_progress_past_guard w tbl la lo cid p pd ln s r :
  (pd <= today w)%Z ->
  check_progress w tbl la lo cid p pd ln s <> (Ok (rejected (Some tbl) r), s).
Proof.
  intros Hpd. unfold check_progress.
  replace (pd >? today w)%Z with false by lia.
  unfold bind at 1, try_except, bind at 1.
  assert (Hlog : forall r1 s1,
             fetch_daily_temp w la lo pd (today w) s = (r1, s1) ->
             length (calls s1) = S (length (calls s))).
  { unfold fetch_daily_temp, bind, log, alloc, raise. cbn [heap calls].
    intros r1 s1.
    destruct (daily_temp_api w la lo pd (today w)); intros H; inversion H;
      cbn [calls]; rewrite length_app; simpl; lia. }
  destruct (fetch_daily_temp w la lo pd (today w) s) as [[weather|ex] s1] eqn:E;
    specialize (Hlog _ _ eq_refl); unfold ret at 1.
  2:{ intros H; inversion H; subst. lia. }
  unfold bind at 1, deref at 1.
  destruct (heap s1 !! weather) as [df|]; [|discriminate].
  destruct (df_empty df).
  { intros H; inversion H; subst. lia. }
  unfold bind at 1.
  destruct (compute_gdd_series _ s1) as [[?|?] ?]; [|discriminate].
  unfold bind at 1.
  destruct (summary_today _ _) as [[?|?] ?]; [|discriminate].
  unfold bind at 1.
  destruct (build_progress_chart _ _) as [[?|?] ?]; [|discriminate].
  unfold bind at 1.
  destruct (build_temperature_chart _ _ _ _) as [[?|?] ?]; [|discriminate].
  discriminate.
Qed.

Lemma plan_harvest_past_guard w tbl la lo cid p pd ln s r :
  (today w < pd)%Z ->
  plan_harvest w tbl la lo cid p pd ln s <> (Ok (rejected (Some tbl) r), s).
Proof.
  intros Hpd Heq.
  destruct (stages_get "harvest" (stages p)) as [hg|] eqn:Hh.
  2:{ unfold plan_harvest in Heq.
      replace (pd <=? today w)%Z with false in Heq by lia.
      rewrite Hh in Heq. discriminate. }
  destruct (Date.add_days pd (plan_estimated_days p hg)) as [e0|] eqn:Hadd.
  2:{ unfold plan_harvest in Heq.
      replace (pd <=? today w)%Z with false in Heq by lia.
      rewrite Hh in Heq. unfold bind, plan_end_date in Heq.
      rewrite Hadd in Heq. discriminate. }
  destruct (plan_harvest_calls w tbl la lo cid p pd ln s
              (Z.min e0 DATE_CEILING) Hpd) as [rest Hrest].
  { exists hg, e0. repeat split; assumption. }
  rewrite Heq in Hrest. cbn [snd] in Hrest.
  apply (f_equal (@length call)) in Hrest.
  rewrite length_app in Hrest. simpl in Hrest. lia.
Qed.

End Picker.

(** The bounds [toggle_mode] puts on the date picker against the guards
    of [compute_gdd].  In check mode the two agree: a planting date is
    selectable exactly when the callback does not turn it down as "not
    past".  In plan mode every selectable date other than today passes
    the guard, but today itself is selectable and is turned down with
    "Plan mode requires a future planting date.". *)
Theorem picker_against_guards
    (w : World) (n : Z) (lat lon : option Q) (cn v pds : option string)
    (ld : option string) (s : State)
    (la lo : Q) (pd : date) (p : CropParams) :
  valid_request w lat lon cn v pds la lo pd p ->
  let table := build_stage_table p (request_crop_id cn v) in
  (picker_allows (toggle_mode w "check") pd <->
   compute_gdd w n lat lon cn v pds "check" ld s <>
   (Ok (rejected (Some table)
          (Message "Check mode requires a past planting date.")), s)) /\
  (forall mode : string,
      mode <> "check" ->
      let turned_down :=
        compute_gdd w n lat lon cn v pds mode ld s =
        (Ok (rejected (Some table)
               (Message "Plan mode requires a future planting date.")), s) in
      (picker_allows (toggle_mode w mode) pd -> pd <> today w ->
       ~ turned_down) /\
      (pd = today w -> (today w <= DATE_CEILING)%Z ->
       picker_allows (toggle_mode w mode) pd /\ turned_down)).
Proof.
  intros Hvalid table. subst table. split.
  - rewrite (compute_gdd_valid w n lat lon cn v pds "check" ld la lo pd p Hvalid).
    cbv zeta. rewrite String.eqb_refl.
    unfold toggle_mode, picker_allows. rewrite String.eqb_refl. split.
    + intros [Hmax _]. now apply check_progress_past_guard.
    + intros Hne. split; [|exact I].
      destruct (Z_le_gt_dec pd (today w)) as [Hle|Hgt]; [exact Hle|].
      exfalso. apply Hne. unfold check_progress.
      replace (pd >? today w)%Z with true by lia. reflexivity.
  - intros mode Hmode turned_down. subst turned_down.
    rewrite (compute_gdd_valid w n lat lon cn v pds mode ld la lo pd p Hvalid).
    cbv zeta. apply String.eqb_neq in Hmode.
    unfold toggle_mode, picker_allows. rewrite Hmode. split.
    + intros [_ Hmin] Hne. apply plan_harvest_past_guard. lia.
    + intros -> Hceil. split; [split; lia|].
      unfold plan_harvest. rewrite Z.leb_refl. reflexivity.
Qed.

Lemma picker_against_guards_witness :
  picker_allows (toggle_mode today_world "plan") scenario_today /\
  compute_gdd today_world 1 (Some 16%Q) (Some 120%Q) (Some "maize")
    (Some "wet") (Some "2030-05-01") "plan" None state0 =
  (Ok (rejected (Some (build_stage_table scenario_crop "maize_wet"))
         (Message "Plan mode requires a future planting date.")), state0).
Proof.
  apply (proj2 (proj2 (picker_against_guards today_world 1 (Some 16%Q)
                         (Some 120%Q) (Some "maize") (Some "wet")
                         (Some "2030-05-01") None state0 16%Q 120%Q
                         scenario_today scenario_crop
                         ltac:(repeat split; reflexivity))
                  "plan" ltac:(discriminate))).
  - reflexivity.
  - discriminate.
Defined.

(** The range of the climate request in plan mode, for a crop with a
    non-negative heat requirement: it starts on the planting date and
    ends at most 365 days later and at most on 31 December 2050; it ends
    on or after the planting date when the planting date is no later
    than that day (as every date the picker allows is), and before it
    otherwise: the request is then sent with its end before its start. *)
Theorem plan_request_range
    (w : World) (n : Z) (lat lon : option Q) (cn v pds : option string)
    (mode : string) (ld : option string) (s : State)
    (la lo : Q) (pd e0 : date) (p : CropParams) (hg : Q) :
  valid_request w lat lon cn v pds la lo pd p ->
  mode <> "check" ->
  (today w < pd)%Z ->
  stages_get "harvest" (stages p) = Some hg ->
  (0 <= hg)%Q ->
  Date.add_days pd (plan_estimated_days p hg) = Some e0 ->
  exists (e : date) (rest : list call),
    calls (snd (compute_gdd w n lat lon cn v pds mode ld s)) =
      calls s ++ Call_climate_api la lo pd e :: rest /\
    (e <= DATE_CEILING)%Z /\ (e <= pd + 365)%Z /\
    ((pd <= DATE_CEILING)%Z -> (pd <= e)%Z) /\
    (picker_allows (toggle_mode w mode) pd -> (pd <= e)%Z) /\
    ((DATE_CEILING < pd)%Z -> e = DATE_CEILING /\ (e < pd)%Z).
Proof.
  intros Hvalid Hmode Hpd Hh Hhg Hadd.
  rewrite (compute_gdd_valid w n lat lon cn v pds mode ld la lo pd p Hvalid).
  cbv zeta. apply String.eqb_neq in Hmode. rewrite Hmode.
  destruct (plan_harvest_calls w (build_stage_table p (request_crop_id cn v))
              la lo (request_crop_id cn v) p pd (request_location ld la lo) s
              (Z.min e0 DATE_CEILING) Hpd) as [rest Hrest].
  { exists hg, e0. repeat split; assumption. }
  exists (Z.min e0 DATE_CEILING), rest. split; [exact Hrest|].
  pose proof (plan_estimated_days_bounds p hg Hhg) as Hdays.
  assert (He0 : e0 = (pd + plan_estimated_days p hg)%Z).
  { unfold Date.add_days in Hadd.
    destruct (_ && _) in Hadd; [now inversion Hadd | discriminate]. }
  unfold toggle_mode, picker_allows. rewrite Hmode.
  repeat split; try lia; intros [Hmax _]; lia.
Qed.

Lemma plan_request_range_witness :
  exists rest : list call,
    calls (snd (compute_gdd today_world 1 (Some 16%Q) (Some 120%Q)
                  (Some "maize") (Some "wet") (Some "2051-03-01") "plan" None
                  state0)) =
    Call_climate_api 16 120 late_planting DATE_CEILING :: rest /\
    (DATE_CEILING < late_planting)%Z.
Proof.
  destruct (plan_request_range today_world 1 (Some 16%Q) (Some 120%Q)
              (Some "maize") (Some "wet") (Some "2051-03-01") "plan" None
              state0 16%Q 120%Q late_planting (late_planting + 90)%Z
              scenario_crop 600%Q)
    as (e & rest & Hcalls & _ & _ & _ & _ & Hlate).
  - repeat split; reflexivity.
  - discriminate.
  - reflexivity.
  - reflexivity.
  - discriminate.
  - reflexivity.
  - destruct (Hlate eq_refl) as [-> _].
    exists rest. split; [exact Hcalls | reflexivity].
Defined.

(** ** Crop ids, crop names and variants *)

Section CropVariants.

Lemma rsplit_underscore_join cid before after :
  rsplit_underscore cid = Some (before, after) ->
  cid = (before ++ "_" ++ after)%string /\ rsplit_underscore after = None.
Proof.
  revert before. induction cid as [|c rest IH]; intros before H;
    [discriminate|].
  simpl in H. destruct (rsplit_underscore rest) as [[b a]|] eqn:E.
  - inversion H; subst. destruct (IH b eq_refl) as [-> Hnone].
    split; [reflexivity | exact Hnone].
  - destruct (Ascii.eqb c "_") eqn:Ec; [|discriminate].
    apply Ascii.eqb_eq in Ec. inversion H; subst.
    split; [reflexivity | exact E].
Qed.

Lemma rsplit_underscore_split before after :
  rsplit_underscore after = None ->
  rsplit_underscore (before ++ "_" ++ after) = Some (before, after).
Proof.
  intros Hnone. induction before as [|c b IH].
  - change (rsplit_underscore (String "_" after) = Some (""%string, after)).
    cbn [rsplit_underscore]. now rewrite Hnone.
  - change (rsplit_underscore (String c (b ++ "_" ++ after)) =
            Some (String c b, after)).
    cbn [rsplit_underscore]. now rewrite IH.
Qed.

Lemma add_variant_lookup acc cid name variant :
  variant ∈ default [] (add_variant acc cid !! name) <->
  variant ∈ default [] (acc !! name) \/ split_crop_id cid = (name, variant).
Proof.
  unfold add_variant. destruct (split_crop_id cid) as [n v].
  destruct (decide (n = name)) as [->|Hne].
  - rewrite lookup_insert_eq. simpl. rewrite elem_of_app, list_elem_of_singleton.
    split; intros [H|H]; auto.
    + right. congruence.
    + right. congruence.
  - rewrite lookup_insert_ne by exact Hne.
    split; [auto|]. intros [H|H]; [exact H | congruence].
Qed.

Lemma fold_add_variant_lookup cids acc name variant :
  variant ∈ default [] (fold_left add_variant cids acc !! name) <->
  variant ∈ default [] (acc !! name) \/
  exists cid, cid ∈ cids /\ split_crop_id cid = (name, variant).
Proof.
  revert acc. induction cids as [|cid rest IH]; intros acc; simpl.
  - split; [auto|]. intros [H|(cid & Hin & _)]; [exact H|]. inversion Hin.
  - rewrite IH, add_variant_lookup. split.
    + intros [[H|H]|(c & Hin & Hc)]; auto.
      * right. exists cid. split; [left | exact H].
      * right. exists c. split; [now right | exact Hc].
    + intros [H|(c & Hin & Hc)]; auto.
      apply elem_of_cons in Hin as [->|Hin]; [auto|].
      right. exists c. auto.
Qed.

Lemma sorted_keys_elem {A} (d : gmap string A) key :
  key ∈ sorted_keys d <-> is_Some (d !! key).
Proof.
  unfold sorted_keys. rewrite merge_sort_Permutation.
  change (map fst (map_to_list d)) with (fst <$> map_to_list d).
  rewrite list_elem_of_fmap. split.
  - intros ([k a] & -> & Hin). apply elem_of_map_to_list in Hin. eauto.
  - intros [a Ha]. exists (key, a). split; [reflexivity|].
    now apply elem_of_map_to_list.
Qed.

(** The variants listed under a crop name are those of the catalog keys
    that split into that name. *)
Lemma crop_variants_lookup w name variant :
  variant ∈ default [] (crop_variants w !! name) <->
  exists cid, is_Some (crops w !! cid) /\ split_crop_id cid = (name, variant).
Proof.
  unfold crop_variants. rewrite fold_add_variant_lookup, lookup_empty. simpl.
  split.
  - intros [H|(cid & Hin & Hc)]; [inversion H|].
    exists cid. split; [now apply sorted_keys_elem | exact Hc].
  - intros (cid & Hin & Hc). right. exists cid.
    split; [now apply sorted_keys_elem | exact Hc].
Qed.

(** Joining the two parts of a split key gives the key back. *)
Lemma crop_id_round_trip_aux cid crop_name variant :
  (rsplit_underscore cid <> None ->
   split_crop_id cid = (crop_name, variant) ->
   request_crop_id (Some crop_name) (Some variant) = cid).
Proof.
  unfold split_crop_id, request_crop_id. cbn [default].
  intros Hsome Hsplit.
  destruct (rsplit_underscore cid) as [[b a]|] eqn:E; [|congruence].
  inversion Hsplit; subst.
  symmetry. exact (proj1 (rsplit_underscore_join cid crop_name variant E)).
Qed.

End CropVariants.

(** Splitting a crop id at its last underscore and joining crop name and
    variant with an underscore are inverse to each other: a catalog key
    with an underscore is rebuilt by the callback from the two parts the
    dropdowns carry, and a joined id splits back into its parts when the
    variant has no underscore. *)
Theorem crop_id_round_trip (cid crop_name variant : string) :
  (rsplit_underscore cid <> None ->
   split_crop_id cid = (crop_name, variant) ->
   request_crop_id (Some crop_name) (Some variant) = cid) /\
  (rsplit_underscore variant = None ->
   split_crop_id (request_crop_id (Some crop_name) (Some variant)) =
   (crop_name, variant)).
Proof.
  split.
  - apply crop_id_round_trip_aux.
  - intros Hnone. unfold split_crop_id, request_crop_id. cbn [default].
    now rewrite rsplit_underscore_split.
Qed.

Lemma crop_id_round_trip_witness :
  request_crop_id (Some "sweet_corn") (Some "wet") = "sweet_corn_wet" /\
  split_crop_id (request_crop_id (Some "sweet_corn") (Some "wet")) =
  ("sweet_corn", "wet").
Proof.
  split.
  - apply (proj1 (crop_id_round_trip "sweet_corn_wet" "sweet_corn" "wet"));
      [discriminate | reflexivity].
  - apply (proj2 (crop_id_round_trip "sweet_corn_wet" "sweet_corn" "wet")).
    reflexivity.
Defined.

(** The variant dropdown: no crop name gives no options and no
    selection; otherwise the options are exactly the variants of the
    catalog keys that split into that crop name, and a variant is
    selected by default exactly when it is the only option. *)
Theorem variant_options_of_catalog (w : World) (crop_name : option string) :
  (falsy crop_name = true -> update_variant_options w crop_name = ([], None)) /\
  (falsy crop_name = false ->
   forall variant : string,
     (variant ∈ fst (update_variant_options w crop_name) <->
      exists cid : string,
        is_Some (crops w !! cid) /\
        split_crop_id cid = (default "" crop_name, variant)) /\
     (snd (update_variant_options w crop_name) = Some variant <->
      fst (update_variant_options w crop_name) = [variant])).
Proof.
  unfold update_variant_options. split.
  - intros ->. reflexivity.
  - intros ->. intros variant. cbn [fst snd]. split.
    + apply crop_variants_lookup.
    + destruct (default [] (crop_variants w !! default "" crop_name))
        as [|v1 [|v2 r]]; split; intros H; try discriminate;
        inversion H; reflexivity.
Qed.

Lemma variant_options_of_catalog_witness :
  "wet" ∈ fst (update_variant_options scenario_world (Some "maize")) /\
  snd (update_variant_options scenario_world (Some "maize")) = Some "wet".
Proof.
  destruct (proj2 (variant_options_of_catalog scenario_world (Some "maize"))
              eq_refl "wet") as [Hopt Hsel].
  split.
  - apply Hopt. exists "maize_wet". split; [eexists|]; reflexivity.
  - apply Hsel. vm_compute. reflexivity.
Defined.

(** When every key of the catalog contains an underscore, every pair of
    crop name and variant that the dropdowns offer is a key of the
    catalog again once the callback joins it: the lookup
    [crops[crop_id]] cannot fail for it. *)
Theorem offered_pairs_resolve
    (w : World) (crop_name variant : string) :
  (forall cid, is_Some (crops w !! cid) -> rsplit_underscore cid <> None) ->
  variant ∈ fst (update_variant_options w (Some crop_name)) ->
  is_Some (crops w !! request_crop_id (Some crop_name) (Some variant)).
Proof.
  intros Hkeys. unfold update_variant_options.
  destruct (falsy (Some crop_name)); cbn [fst]; [intros H; inversion H|].
  cbn [default]. intros Hin.
  apply crop_variants_lookup in Hin as (cid & Hcid & Hsplit).
  rewrite (crop_id_round_trip_aux cid crop_name variant
             (Hkeys cid Hcid) Hsplit).
  exact Hcid.
Qed.

Lemma offered_pairs_resolve_witness :
  is_Some (crops scenario_world !! request_crop_id (Some "slow") (Some "dry")).
Proof.
  apply (offered_pairs_resolve scenario_world "slow" "dry").
  - intros cid [p Hp]. cbn [crops scenario_world] in Hp.
    unfold scenario_catalog in Hp.
    apply lookup_insert_Some in Hp as [[<- _]|[_ Hp]]; [discriminate|].
    apply lookup_insert_Some in Hp as [[<- _]|[_ Hp]]; [discriminate|].
    rewrite lookup_empty in Hp. discriminate.
  - vm_compute. apply list_elem_of_In. simpl. tauto.
Defined.

(** A catalog key without an underscore is offered as the variant
    "default" of the crop named like the key; but the callback then
    looks up the key with "_default" appended, so unless the catalog has
    that key too, choosing the offered pair raises [KeyError]. *)
Theorem key_without_underscore_is_lost
    (w : World) (cid : string) (p : CropParams) :
  crops w !! cid = Some p ->
  rsplit_underscore cid = None ->
  cid <> "" ->
  crops w !! request_crop_id (Some cid) (Some "default") = None ->
  "default" ∈ fst (update_variant_options w (Some cid)) /\
  forall (n : Z) (la lo : Q) (pds : option string) (mode : string)
         (ld : option string) (s : State) (pd : date),
    falsy pds = false ->
    fromisoformat w (default "" pds) = Some pd ->
    compute_gdd w n (Some la) (Some lo) (Some cid) (Some "default") pds mode
      ld s =
    (Raise (KeyError (request_crop_id (Some cid) (Some "default"))), s).
Proof.
  intros Hcid Hnone Hne Hmissing.
  assert (Hfalsy : falsy (Some cid) = false).
  { unfold falsy. now apply String.eqb_neq. }
  split.
  - unfold update_variant_options. rewrite Hfalsy. cbn [fst default].
    apply crop_variants_lookup. exists cid. split; [eauto|].
    unfold split_crop_id. now rewrite Hnone.
  - intros n la lo pds mode ld s pd Hpds Hparse.
    unfold compute_gdd. rewrite Hfalsy. cbn [falsy String.eqb orb].
    rewrite Hpds, Hparse.
    fold (request_crop_id (Some cid) (Some "default")). now rewrite Hmissing.
Qed.

Lemma key_without_underscore_is_lost_witness :
  "default" ∈ fst (update_variant_options plain_world (Some "rice")) /\
  compute_gdd plain_world 1 (Some 16%Q) (Some 120%Q) (Some "rice")
    (Some "default") (Some "2030-04-01") "check" None state0 =
  (Raise (KeyError "rice_default"), state0).
Proof.
  destruct (key_without_underscore_is_lost plain_world "rice" scenario_crop)
    as [Hopt Hrun]; try reflexivity; [discriminate|].
  split; [exact Hopt|].
  apply (Hrun 1%Z 16%Q 120%Q (Some "2030-04-01") "check" None state0
           scenario_past); reflexivity.
Defined.
